(** * Pricing helpers of the web portal: [src/helper-functions/CardHelpers.js]

    The four exported helpers [getAmountWithSign], [getDiscountedAmount],
    [getSelectedAddOn] and [getReferDiscount] are embedded as Rocq functions
    over a fragment of the ECMAScript run time: values, the conversions the
    helpers trigger implicitly ([ToNumber], [ToString], [ToBoolean]), IEEE
    binary64 arithmetic, [Math.floor], [Number.prototype.toFixed] and the
    exceptions those may raise. *)

From Stdlib Require Import ZArith List String Ascii Bool Lia.
From Stdlib Require Import DecimalString SpecFloat.
Import ListNotations.

Open Scope string_scope.
Open Scope Z_scope.

(* ================================================================= *)
(** * Completion records: a result or a thrown exception *)

Inductive JsError : Type :=
| TypeError
| RangeError.

Inductive completion (A : Type) : Type :=
| Ok (a : A)
| Throw (e : JsError).

Arguments Ok {A} a.
Arguments Throw {A} e.

Definition bind {A B : Type} (c : completion A) (k : A -> completion B)
  : completion B :=
  match c with
  | Ok a => k a
  | Throw e => Throw e
  end.

Notation "x <- c ;; k" := (bind c (fun x => k))
  (at level 61, c at next level, right associativity).

Definition returns {A : Type} (c : completion A) : Prop :=
  exists a, c = Ok a.

(* ================================================================= *)
(** * Number values

    A Number is an IEEE 754 binary64 value.  [spec_float] is the Standard
    Library's specification of them (one NaN, signed zeros and infinities,
    finite values [(-1)^s * m * 2^e]); its operations round to nearest,
    ties to even, as ECMAScript requires. *)

Module Num.

Definition number : Type := spec_float.

Definition prec : Z := 53.
Definition emax : Z := 1024.

Definition NaN : number := S754_nan.
Definition Infinity : number := S754_infinity false.
Definition pos_zero : number := S754_zero false.

(** Canonical representations only: 53 significant bits for normal
    values, exponent [-1074] for subnormal ones. *)
Definition valid (x : number) : bool := valid_binary prec emax x.

Definition sub : number -> number -> number := SFsub prec emax.
Definition mul : number -> number -> number := SFmul prec emax.
Definition div : number -> number -> number := SFdiv prec emax.
Definition ltb : number -> number -> bool := SFltb.

Definition is_nan (x : number) : bool :=
  match x with S754_nan => true | _ => false end.

Definition is_finite (x : number) : bool :=
  match x with
  | S754_zero _ | S754_finite _ _ _ => true
  | S754_nan | S754_infinity _ => false
  end.

Definition eqb (x y : number) : bool :=
  match x, y with
  | S754_nan, S754_nan => true
  | S754_zero a, S754_zero b => Bool.eqb a b
  | S754_infinity a, S754_infinity b => Bool.eqb a b
  | S754_finite a m e, S754_finite b m' e' =>
      Bool.eqb a b && Pos.eqb m m' && Z.eqb e e'
  | _, _ => false
  end.

(** The Number value for the integer [n] (exact when [|n| <= 2^53]). *)
Definition of_Z (n : Z) : number := binary_normalize prec emax n 0 false.

(** The Number value for the rational [(-1)^s * p / q]: the quotient is
    taken on the exact numerator and denominator and rounded once. *)
Definition of_ratio (s : bool) (p q : positive) : number :=
  SFdiv prec emax (S754_finite s p 0) (S754_finite false q 0).

(** The Number value for [(-1)^s * d * 10^e]. *)
Definition of_decimal (s : bool) (d : Z) (e : Z) : number :=
  match d with
  | Zpos p =>
      if 0 <=? e
      then of_ratio s (p * Z.to_pos (10 ^ e)) 1
      else of_ratio s p (Z.to_pos (10 ^ (- e)))
  | _ => S754_zero s
  end.

(** The exact value of a finite Number as a fraction [fst / snd]
    with a power of two as denominator. *)
Definition numerator (m : positive) (e : Z) : Z :=
  if 0 <=? e then Zpos m * 2 ^ e else Zpos m.

Definition denominator (e : Z) : Z :=
  if 0 <=? e then 1 else 2 ^ (- e).

(** ** [Math.floor] (ECMAScript 21.3.2.16) *)

Definition signed (s : bool) (m : positive) : Z :=
  if s then Zneg m else Zpos m.

Definition Math_floor (x : number) : number :=
  match x with
  | S754_finite s m e =>
      if 0 <=? e then x
      else
        let n := signed s m / 2 ^ (- e) in
        if n =? 0 then S754_zero s else of_Z n
  | _ => x
  end.

(** The rounding the specification words ask of the formatter instead:
    "truncate toward zero (drop fractional part, no rounding)". *)
Definition truncate_toward_zero (x : number) : number :=
  match x with
  | S754_finite s m e =>
      if 0 <=? e then x
      else
        let n := Z.quot (signed s m) (2 ^ (- e)) in
        if n =? 0 then S754_zero s else of_Z n
  | _ => x
  end.

(** The integer a finite Number denotes, when it denotes one. *)
Definition to_Z (x : number) : option Z :=
  match x with
  | S754_zero _ => Some 0
  | S754_finite s m e =>
      if 0 <=? e then Some (signed s m * 2 ^ e)
      else if (Zpos m mod 2 ^ (- e)) =? 0
           then Some (signed s m / 2 ^ (- e))
           else None
  | _ => None
  end.

(** ** [Number::toString] with radix 10 (ECMAScript 6.1.6.1.20) *)

Definition decimal (n : Z) : string :=
  NilZero.string_of_uint (N.to_uint (Z.to_N n)).

Fixpoint zeros (n : nat) : string :=
  match n with
  | O => EmptyString
  | S k => String "0" (zeros k)
  end.

Definition take (n : nat) (s : string) : string := substring 0 n s.
Definition drop (n : nat) (s : string) : string :=
  substring n (String.length s - n) s.

(** The least exponent from [t] on at which [q <= p * 10^t], looking
    at most [fuel] steps ahead. *)
Fixpoint leading_zeros (fuel : nat) (p q t : Z) : Z :=
  match fuel with
  | O => t
  | S f => if q <=? p * 10 ^ t then t else leading_zeros f p q (t + 1)
  end.

(** The [n] with [10^(n-1) <= p/q < 10^n], for [p/q] the exact value of
    a finite Number: [q] is a power of two, so at most [log2 q] steps
    are needed below one. *)
Definition decimal_exponent (p q : Z) : Z :=
  if q <=? p then Z.of_nat (String.length (decimal (p / q)))
  else 1 - leading_zeros (Z.to_nat (Z.log2 q)) p q 1.

(** [p/q * 10^(k-n)] as a fraction. *)
Definition scaled (p q n k : Z) : Z * Z :=
  if n <=? k then (p * 10 ^ (k - n), q) else (p, q * 10 ^ (n - k)).

(** The integer closest to [a/b], the even one on a tie. *)
Definition nearest (a b : Z) : Z :=
  let lo := a / b in
  match Z.compare (2 * (a mod b)) b with
  | Lt => lo
  | Gt => lo + 1
  | Eq => if Z.even lo then lo else lo + 1
  end.

(** Does the decimal [s * 10^(n-k)] read back as [x]? *)
Definition candidate (x : number) (n k s : Z) : bool :=
  eqb (of_decimal false s (n - k)) x.

(** The shortest decimal that reads back as [x = p/q].  For
    [k = 1, 2, ...] the two multiples of [10^(n-k)] around [x] are
    tried; when both read back as [x] the closer one wins.  Seventeen
    digits always identify a binary64 value, so the search ends there
    with the closest decimal. *)
Fixpoint shortest (fuel : nat) (x : number) (p q n k : Z) : Z * Z :=
  let '(a, b) := scaled p q n k in
  match fuel with
  | O => (nearest a b, k)
  | S f =>
      let lo := a / b in
      match candidate x n k lo, candidate x n k (lo + 1) with
      | true, true => (nearest a b, k)
      | true, false => (lo, k)
      | false, true => (lo + 1, k)
      | false, false => shortest f x p q n (k + 1)
      end
  end.

(** The digits [s] (as a string of [k] digits) and the exponent [n] of
    [Number::toString], step 5, for the positive Number [m * 2^e].  A
    candidate that was rounded up to [10^k] is [10^(k-1)] one decade
    higher. *)
Definition shortest_decimal (m : positive) (e : Z) : string * Z :=
  let p := numerator m e in
  let q := denominator e in
  let n := decimal_exponent p q in
  let '(s, k) := shortest 16 (S754_finite false m e) p q n 1 in
  if s =? 10 ^ k then (decimal (10 ^ (k - 1)), n + 1) else (decimal s, n).

Definition exponent_part (n : Z) : string :=
  let sign := if 0 <? n - 1 then "+" else "-" in
  ("e" ++ sign ++ decimal (Z.abs (n - 1)))%string.

Definition format_decimal (ds : string) (n : Z) : string :=
  let k := Z.of_nat (String.length ds) in
  if (k <=? n) && (n <=? 21) then
    (ds ++ zeros (Z.to_nat (n - k)))%string
  else if (0 <? n) && (n <=? 21) then
    (take (Z.to_nat n) ds ++ "." ++ drop (Z.to_nat n) ds)%string
  else if (-6 <? n) && (n <=? 0) then
    ("0." ++ zeros (Z.to_nat (- n)) ++ ds)%string
  else if k =? 1 then
    (ds ++ exponent_part n)%string
  else
    (take 1 ds ++ "." ++ drop 1 ds ++ exponent_part n)%string.

Definition Number_toString (x : number) : string :=
  match x with
  | S754_nan => "NaN"%string
  | S754_zero _ => "0"%string
  | S754_infinity s => ((if s then "-" else "") ++ "Infinity")%string
  | S754_finite s m e =>
      let '(ds, n) := shortest_decimal m e in
      ((if s then "-" else "") ++ format_decimal ds n)%string
  end.

(** ** [Number.prototype.toFixed] (ECMAScript 21.1.3.3), from step 5 on:
    [f] is the number of fraction digits, already checked to lie in
    [0..100]. *)

(** The integer [n] with [n / 10^f] closest to [p/q], the larger one on
    a tie. *)
Definition round_half_up (p q f : Z) : Z :=
  (2 * p * 10 ^ f + q) / (2 * q).

Definition fixed_digits (n f : Z) : string :=
  let m := decimal n in
  if f =? 0 then m
  else
    let k := Z.of_nat (String.length m) in
    let m :=
      if k <=? f then (zeros (Z.to_nat (f + 1 - k)) ++ m)%string else m in
    let k := String.length m in
    let a := (k - Z.to_nat f)%nat in
    (take a m ++ "." ++ drop a m)%string.

Definition toFixed_digits (x : number) (f : Z) : string :=
  match x with
  | S754_nan | S754_infinity _ => Number_toString x
  | S754_zero _ => fixed_digits 0 f
  | S754_finite s m e =>
      let p := numerator m e in
      let q := denominator e in
      let digits :=
        if 10 ^ 21 * q <=? p
        then Number_toString (S754_finite false m e)
        else fixed_digits (round_half_up p q f) f in
      ((if s then "-" else "") ++ digits)%string
  end.

End Num.

(* ================================================================= *)
(** * String values

    A String is kept as the UTF-8 bytes of its code points, the way the
    source text holds its literals.  Concatenation and equality are those
    of the UTF-16 code units; only white space and [length] look inside. *)

Module Str.

Definition bytes (s : string) : list Z :=
  map (fun c => Z.of_N (N_of_ascii c)) (list_ascii_of_string s).

(** [length]: the number of UTF-16 code units.  Every code point counts
    once at its leading byte, and once more when it lies beyond the
    basic plane (leading byte [0xF0] and above). *)
Definition code_units (b : Z) : Z :=
  if (128 <=? b) && (b <? 192) then 0
  else if 240 <=? b then 2
  else 1.

Definition utf16_length (s : string) : Z :=
  fold_right (fun b n => code_units b + n) 0 (bytes s).

(** [StrWhiteSpaceChar] (ECMAScript 7.1.4.1.1): WhiteSpace and
    LineTerminator. *)
Definition white_space (c : list Z) : bool :=
  match c with
  | [b] => (9 <=? b) && (b <=? 13) || (b =? 32)        (* TAB LF VT FF CR SP *)
  | [194; 160] => true                                 (* U+00A0 *)
  | [225; 154; 128] => true                            (* U+1680 *)
  | [226; 128; b] =>
      (128 <=? b) && (b <=? 138)                       (* U+2000 .. U+200A *)
      || (b =? 168) || (b =? 169)                      (* U+2028, U+2029 *)
      || (b =? 175)                                    (* U+202F *)
  | [226; 129; 159] => true                            (* U+205F *)
  | [227; 128; 128] => true                            (* U+3000 *)
  | [239; 187; 191] => true                            (* U+FEFF *)
  | _ => false
  end.

Definition oriented (backwards : bool) (c : list Z) : list Z :=
  if backwards then rev c else c.

(** Drops the white space a byte sequence starts with; [backwards] when
    the sequence is a reversed one. *)
Fixpoint skip_white_space (backwards : bool) (s : list Z) : list Z :=
  match s with
  | [] => []
  | a :: r =>
      if white_space [a] then skip_white_space backwards r
      else
        match r with
        | [] => s
        | b :: r2 =>
            if white_space (oriented backwards [a; b])
            then skip_white_space backwards r2
            else
              match r2 with
              | [] => s
              | c :: r3 =>
                  if white_space (oriented backwards [a; b; c])
                  then skip_white_space backwards r3
                  else s
              end
        end
  end.

Definition trim (s : list Z) : list Z :=
  rev (skip_white_space true (rev (skip_white_space false s))).

(** ** [StringToNumber] (ECMAScript 7.1.4.1.1) *)

Definition digit (radix : Z) (b : Z) : option Z :=
  let v :=
    if (48 <=? b) && (b <=? 57) then b - 48            (* 0 .. 9 *)
    else if (97 <=? b) && (b <=? 102) then b - 87      (* a .. f *)
    else if (65 <=? b) && (b <=? 70) then b - 55       (* A .. F *)
    else radix in
  if v <? radix then Some v else None.

(** The longest run of digits [s] starts with: its value on top of
    [acc], its length on top of [count], and what follows it. *)
Fixpoint digits (radix : Z) (s : list Z) (acc count : Z)
  : Z * Z * list Z :=
  match s with
  | [] => (acc, count, [])
  | b :: r =>
      match digit radix b with
      | Some d => digits radix r (acc * radix + d) (count + 1)
      | None => (acc, count, s)
      end
  end.

(** [ExponentPart], optional, up to the end of the literal; [None] when
    the text is no exponent part. *)
Definition exponent (s : list Z) : option Z :=
  match s with
  | [] => Some 0
  | b :: r =>
      if (b =? 101) || (b =? 69) then                   (* e E *)
        let '(negative, r) :=
          match r with
          | 43 :: t => (false, t)                       (* + *)
          | 45 :: t => (true, t)                        (* - *)
          | _ => (false, r)
          end in
        match digits 10 r 0 0 with
        | (v, n, []) =>
            if 0 <? n then Some (if negative then - v else v) else None
        | _ => None
        end
      else None
  end.

(** [StrUnsignedDecimalLiteral] with the sign read before it. *)
Definition unsigned_decimal (negative : bool) (s : list Z) : Num.number :=
  if list_eq_dec Z.eq_dec s (bytes "Infinity") then S754_infinity negative
  else
    let '(i, ni, r) := digits 10 s 0 0 in
    match r with
    | 46 :: r1 =>                                       (* . *)
        let '(f, nf, r2) := digits 10 r1 0 0 in
        if (0 <? ni) || (0 <? nf) then
          match exponent r2 with
          | Some e => Num.of_decimal negative (i * 10 ^ nf + f) (e - nf)
          | None => Num.NaN
          end
        else Num.NaN
    | _ =>
        if 0 <? ni then
          match exponent r with
          | Some e => Num.of_decimal negative i e
          | None => Num.NaN
          end
        else Num.NaN
    end.

Definition radix_prefix (b : Z) : option Z :=
  match b with
  | 120 | 88 => Some 16                                 (* x X *)
  | 111 | 79 => Some 8                                  (* o O *)
  | 98 | 66 => Some 2                                   (* b B *)
  | _ => None
  end.

(** [NonDecimalIntegerLiteral] after its prefix. *)
Definition integer_literal (radix : Z) (s : list Z) : Num.number :=
  match digits radix s 0 0 with
  | (v, n, []) => if 0 <? n then Num.of_Z v else Num.NaN
  | _ => Num.NaN
  end.

Definition numeric_literal (s : list Z) : Num.number :=
  match s with
  | [] => Num.pos_zero
  | 43 :: r => unsigned_decimal false r                 (* + *)
  | 45 :: r => unsigned_decimal true r                  (* - *)
  | 48 :: b :: r =>
      match radix_prefix b with
      | Some radix => integer_literal radix r
      | None => unsigned_decimal false s
      end
  | _ => unsigned_decimal false s
  end.

Definition StringToNumber (s : string) : Num.number :=
  numeric_literal (trim (bytes s)).

End Str.

(* ================================================================= *)
(** * Language values

    The values the helpers are run on: the primitives, arrays and plain
    objects (own data properties in insertion order, each key once,
    prototype [Object.prototype]).  Functions, symbols, BigInts and
    accessor properties are outside this universe. *)

#[warnings="-register-all"]
Inductive JsValue : Type :=
| JUndefined
| JNull
| JBool (b : bool)
| JNum (x : Num.number)
| JStr (s : string)
| JArr (elems : list JsValue)
| JObj (fields : list (string * JsValue)).

Definition JInt (n : Z) : JsValue := JNum (Num.of_Z n).

Definition is_nullish (v : JsValue) : bool :=
  match v with
  | JUndefined | JNull => true
  | _ => false
  end.

Definition is_primitive (v : JsValue) : bool :=
  match v with
  | JArr _ | JObj _ => false
  | _ => true
  end.

(** ** Property access *)

Fixpoint lookup (key : string) (fields : list (string * JsValue)) : JsValue :=
  match fields with
  | [] => JUndefined
  | (k, v) :: rest => if String.eqb k key then v else lookup key rest
  end.

Definition has_own (key : string) (fields : list (string * JsValue)) : bool :=
  existsb (fun f => String.eqb (fst f) key) fields.

(** [v.key] for a [v] that is neither [undefined] nor [null], and a [key]
    that is a data property: an own field of an object, [length] of an
    array or a string, [undefined] elsewhere.  (The property names the
    helpers read are no methods of a built-in prototype, [map] apart,
    which [OptionalMap] treats.) *)
Definition property (v : JsValue) (key : string) : JsValue :=
  match v with
  | JObj fields => lookup key fields
  | JArr elems =>
      if String.eqb key "length" then JInt (Z.of_nat (List.length elems))
      else JUndefined
  | JStr s =>
      if String.eqb key "length" then JInt (Str.utf16_length s)
      else JUndefined
  | _ => JUndefined
  end.

(** [v.key] *)
Definition Get (v : JsValue) (key : string) : completion JsValue :=
  if is_nullish v then Throw TypeError else Ok (property v key).

(** [v?.key] *)
Definition OptionalGet (v : JsValue) (key : string) : JsValue :=
  if is_nullish v then JUndefined else property v key.

(** ** Conversions (ECMAScript 7.1) *)

Definition ToBoolean (v : JsValue) : bool :=
  match v with
  | JUndefined | JNull => false
  | JBool b => b
  | JNum (S754_zero _) | JNum S754_nan => false
  | JNum _ => true
  | JStr s => negb (String.eqb s "")
  | JArr _ | JObj _ => true
  end.

(** [ToString].  An array goes through [Array.prototype.join]; a plain
    object through [Object.prototype.toString], unless an own [toString]
    field, which is no function here, hides it: then no method yields a
    primitive and [OrdinaryToPrimitive] throws. *)
Fixpoint ToString (v : JsValue) : completion string :=
  match v with
  | JUndefined => Ok "undefined"
  | JNull => Ok "null"
  | JBool b => Ok (if b then "true" else "false")
  | JNum x => Ok (Num.Number_toString x)
  | JStr s => Ok s
  | JArr elems =>
      (fix join (l : list JsValue) : completion string :=
         match l with
         | [] => Ok ""
         | e :: r =>
             s <- (if is_nullish e then Ok "" else ToString e) ;;
             match r with
             | [] => Ok s
             | _ => t <- join r ;; Ok (s ++ "," ++ t)
             end
         end) elems
  | JObj fields =>
      if has_own "toString" fields then Throw TypeError
      else Ok "[object Object]"
  end.

Definition ToPrimitive (v : JsValue) : completion JsValue :=
  if is_primitive v then Ok v else s <- ToString v ;; Ok (JStr s).

Definition ToNumber (v : JsValue) : completion Num.number :=
  p <- ToPrimitive v ;;
  Ok match p with
     | JUndefined => Num.NaN
     | JNull | JBool false => Num.pos_zero
     | JBool true => Num.of_Z 1
     | JNum x => x
     | JStr s => Str.StringToNumber s
     | JArr _ | JObj _ => Num.NaN     (* no result of [ToPrimitive] *)
     end.

Inductive integer_or_infinity : Type :=
| Finite (n : Z)
| PlusInfinity
| MinusInfinity.

Definition ToIntegerOrInfinity (v : JsValue) : completion integer_or_infinity :=
  x <- ToNumber v ;;
  Ok match x with
     | S754_nan | S754_zero _ => Finite 0
     | S754_infinity s => if s then MinusInfinity else PlusInfinity
     | S754_finite s m e =>
         Finite (if 0 <=? e then Num.signed s m * 2 ^ e
                 else Z.quot (Num.signed s m) (2 ^ (- e)))
     end.

(** ** Operators *)

(** [`${v}`] *)
Definition template (v : JsValue) : completion string := ToString v.

(** [a - b], [a * b], [a / b]: both operands go through [ToNumeric], the
    left one first. *)
Definition arith (op : Num.number -> Num.number -> Num.number)
  (a b : JsValue) : completion JsValue :=
  x <- ToNumber a ;;
  y <- ToNumber b ;;
  Ok (JNum (op x y)).

Definition js_sub : JsValue -> JsValue -> completion JsValue := arith Num.sub.
Definition js_mul : JsValue -> JsValue -> completion JsValue := arith Num.mul.
Definition js_div : JsValue -> JsValue -> completion JsValue := arith Num.div.

(** [IsLessThan] with a Number [x] on the left: the other operand is made
    a Number too, and an undefined comparison (a NaN) stands as [None]. *)
Definition IsLessThan (x : Num.number) (v : JsValue)
  : completion (option bool) :=
  y <- ToNumber v ;;
  Ok (if Num.is_nan x || Num.is_nan y then None else Some (Num.ltb x y)).

(** [v > x] and [v <= x] for a Number [x] (ECMAScript 13.10.1). *)
Definition js_gt (v : JsValue) (x : Num.number) : completion bool :=
  r <- IsLessThan x v ;;
  Ok match r with Some b => b | None => false end.

Definition js_le (v : JsValue) (x : Num.number) : completion bool :=
  r <- IsLessThan x v ;;
  Ok match r with Some b => negb b | None => false end.

(** [v === "literal"] *)
Definition strict_eq_str (v : JsValue) (literal : string) : bool :=
  match v with
  | JStr s => String.eqb s literal
  | _ => false
  end.

(** [a ?? b] and [a || b] with a [b] that has no effects. *)
Definition nullish_or (a b : JsValue) : JsValue :=
  if is_nullish a then b else a.

Definition js_or (a b : JsValue) : JsValue :=
  if ToBoolean a then a else b.

(** [isNaN(Number(v))] *)
Definition isNaN_Number (v : JsValue) : completion bool :=
  x <- ToNumber v ;; Ok (Num.is_nan x).

(** [x.toFixed(fractionDigits)] (ECMAScript 21.1.3.3) *)
Definition toFixed (x : Num.number) (fractionDigits : JsValue)
  : completion string :=
  f <- ToIntegerOrInfinity fractionDigits ;;
  match f with
  | Finite f =>
      if (f <? 0) || (100 <? f) then Throw RangeError
      else Ok (Num.toFixed_digits x f)
  | _ => Throw RangeError
  end.

(** [v?.map(callback)] called for the effects of [callback] on a state of
    type [S].  The call is skipped on [undefined] and [null];
    [Array.prototype.map] visits the elements in ascending index order;
    any other value has no callable [map], and the call throws. *)
Section ArrayMap.
Context {S : Type}.
Variable callback : JsValue -> Z -> S -> completion S.

Fixpoint visit (items : list JsValue) (index : Z) (st : S) : completion S :=
  match items with
  | [] => Ok st
  | item :: rest =>
      st' <- callback item index st ;;
      visit rest (index + 1) st'
  end.

Definition OptionalMap (v : JsValue) (st : S) : completion S :=
  match v with
  | JUndefined | JNull => Ok st
  | JArr items => visit items 0 st
  | _ => Throw TypeError
  end.
End ArrayMap.

(* ================================================================= *)
(** * The helpers of [CardHelpers.js] *)

(** [getAmountWithSign(amount, needDecimal = true)], run in a store whose
    [getState()] returns [state]. *)
Definition getAmountWithSign (state amount needDecimal : JsValue)
  : completion string :=
  let needDecimal :=
    match needDecimal with JUndefined => JBool true | _ => needDecimal end in
  nan <- (if is_nullish amount then Ok true else isNaN_Number amount) ;;
  if nan then Ok "" else
  let configData :=
    property (js_or (OptionalGet state "configData") (JObj [])) "configData" in
  let decimals :=
    nullish_or (OptionalGet configData "digit_after_decimal_point") (JInt 2) in
  let symbol := js_or (OptionalGet configData "currency_symbol") (JStr "") in
  let direction :=
    js_or (OptionalGet configData "currency_symbol_direction") (JStr "left") in
  let formatNumber (num : Num.number) : completion JsValue :=
    if ToBoolean needDecimal
    then s <- toFixed num decimals ;; Ok (JStr s)
    else Ok (JNum (Num.Math_floor num)) in
  num <- ToNumber amount ;;
  formattedAmount <- formatNumber num ;;
  if strict_eq_str direction "left"
  then s <- template symbol ;; t <- template formattedAmount ;; Ok (s ++ t)
  else t <- template formattedAmount ;; s <- template symbol ;; Ok (t ++ s).

Definition getDiscountedAmount
  (price discount discountType storeDiscount quantity : JsValue)
  : completion JsValue :=
  let mainPrice := price in
  let q := if ToBoolean quantity then quantity else JInt 1 in
  positive <- js_gt discount (Num.of_Z 0) ;;
  if positive then
    if strict_eq_str discountType "amount" then
      cut <- js_mul discount q ;;
      js_sub price cut
    else if strict_eq_str discountType "percent"
            || strict_eq_str discountType "fixed" then
      rate <- js_div discount (JInt 100) ;;
      cut <- js_mul rate price ;;
      js_sub price cut
    else Ok mainPrice
  else Ok mainPrice.

(** The callback of [getSelectedAddOn], with the variable [add_on] it
    assigns to as its state. *)
Definition append_add_on (item : JsValue) (index : Z) (add_on : string)
  : completion string :=
  if ToBoolean (OptionalGet item "isChecked") then
    sep <- template (JStr (if negb (index =? 0) then ", " else "")) ;;
    name <- Get item "name" ;;
    text <- template name ;;
    Ok (add_on ++ (sep ++ text))
  else Ok add_on.

Definition getSelectedAddOn (add_ons : JsValue) : completion string :=
  let add_on := "" in
  some <- js_gt (OptionalGet add_ons "length") (Num.of_Z 0) ;;
  if some then OptionalMap append_add_on add_ons add_on
  else Ok add_on.

Definition getReferDiscount
  (totalAmountForRefer refDiscount refPercentage : JsValue)
  : completion JsValue :=
  if strict_eq_str refPercentage "percentage" then
    rate <- js_div refDiscount (JInt 100) ;;
    js_mul rate totalAmountForRefer
  else Ok refDiscount.

(* ================================================================= *)
(** * Vocabulary of the statements *)

(** ** The constants [getAmountWithSign] reads from the store *)

Definition configData (state : JsValue) : JsValue :=
  property (js_or (OptionalGet state "configData") (JObj [])) "configData".

Definition decimals (state : JsValue) : JsValue :=
  nullish_or (OptionalGet (configData state) "digit_after_decimal_point")
    (JInt 2).

Definition symbol (state : JsValue) : JsValue :=
  js_or (OptionalGet (configData state) "currency_symbol") (JStr "").

Definition direction (state : JsValue) : JsValue :=
  js_or (OptionalGet (configData state) "currency_symbol_direction")
    (JStr "left").

(** A store state holding the three settings. *)
Definition store_state (digits : JsValue) (currency position : string)
  : JsValue :=
  JObj [("configData",
         JObj [("configData",
                JObj [("digit_after_decimal_point", digits);
                      ("currency_symbol", JStr currency);
                      ("currency_symbol_direction", JStr position)])])].

(** The symbol put before the numeric string when the position is
    [left], after it otherwise. *)
Definition placed (state : JsValue) (currency numeric : string) : string :=
  if strict_eq_str (direction state) "left"
  then currency ++ numeric
  else numeric ++ currency.

(** Whether digits after the decimal point are asked for: the parameter
    [needDecimal] after its default [true]. *)
Definition wants_decimals (needDecimal : JsValue) : bool :=
  ToBoolean
    match needDecimal with JUndefined => JBool true | _ => needDecimal end.

(** The numeric string [getAmountWithSign] puts the symbol around. *)
Definition formatted_number (state needDecimal : JsValue) (x : Num.number)
  : completion string :=
  if wants_decimals needDecimal then toFixed x (decimals state)
  else Ok (Num.Number_toString (Num.Math_floor x)).

(** [amount] gets past the guard of [getAmountWithSign] as the Number
    [x]. *)
Definition numeric_amount (amount : JsValue) (x : Num.number) : Prop :=
  is_nullish amount = false /\ ToNumber amount = Ok x /\ Num.is_nan x = false.

(** The fraction digits [toFixed] accepts, and those it refuses. *)
Definition fraction_digits (v : JsValue) (f : Z) : Prop :=
  ToIntegerOrInfinity v = Ok (Finite f) /\ 0 <= f <= 100.

Definition out_of_range (r : integer_or_infinity) : Prop :=
  match r with
  | Finite f => f < 0 \/ 100 < f
  | _ => True
  end.

(** An array holds at most [2^32 - 1] elements (ECMAScript 10.4.2). *)
Definition array_sized (items : list JsValue) : Prop :=
  Z.of_nat (List.length items) < 2 ^ 32.

(** Literals of the examples. *)
Definition n12_345 : Num.number := Num.of_decimal false 12345 (-3).
Definition minus_12_3 : Num.number := Num.of_decimal true 123 (-1).

(** ** The wording of the specification where the code departs from it *)

(** "if false, truncate toward zero": the numeric part of the result is
    the integer part of the amount. *)
Definition formats_truncated (state amount : JsValue) : Prop :=
  forall x currency,
    numeric_amount amount x -> Num.is_finite x = true ->
    ToString (symbol state) = Ok currency ->
    getAmountWithSign state amount (JBool false)
    = Ok (placed state currency
            (Num.Number_toString (Num.truncate_toward_zero x))).

(** "if amount is null, undefined, or not convertible to a finite number,
    return an empty string". *)
Definition not_finite (amount : JsValue) : Prop :=
  is_nullish amount = true
  \/ exists x, ToNumber amount = Ok x /\ Num.is_finite x = false.

Definition rejects_not_finite (state amount needDecimal : JsValue) : Prop :=
  not_finite amount -> getAmountWithSign state amount needDecimal = Ok "".

(** "No exceptions are thrown by any of the four operations under any
    input". *)
Definition never_throw : Prop :=
  (forall state amount needDecimal,
      returns (getAmountWithSign state amount needDecimal))
  /\ (forall price discount discountType storeDiscount quantity,
         returns (getDiscountedAmount price discount discountType
                    storeDiscount quantity))
  /\ (forall totalAmountForRefer refDiscount refPercentage,
         returns (getReferDiscount totalAmountForRefer refDiscount
                    refPercentage))
  /\ (forall add_ons, returns (getSelectedAddOn add_ons)).

(** ** Add-on selections *)

(** An entry of the data model, and the item values that carry it. *)
Record AddOn : Type := { name : string; isChecked : bool }.

Definition carries (item : JsValue) (a : AddOn) : Prop :=
  OptionalGet item "isChecked" = JBool (isChecked a)
  /\ property item "name" = JStr (name a).

Definition add_on_item (a : AddOn) : JsValue :=
  JObj [("name", JStr (name a)); ("isChecked", JBool (isChecked a))].

Fixpoint enumerate {A : Type} (index : Z) (l : list A) : list (Z * A) :=
  match l with
  | [] => []
  | a :: r => (index, a) :: enumerate (index + 1) r
  end.

(** The checked entries with their positions in the whole sequence. *)
Definition selected (index : Z) (entries : list AddOn) : list (Z * AddOn) :=
  filter (fun p => isChecked (snd p)) (enumerate index entries).

Definition separator (index : Z) : string :=
  if index =? 0 then "" else ", ".

(** The text the code builds: each checked entry in turn, a separator
    before it unless its position is 0. *)
Definition label (index : Z) (entries : list AddOn) : string :=
  fold_right String.append ""
    (map (fun p => separator (fst p) ++ name (snd p)) (selected index entries)).

(** The quantity [getDiscountedAmount] multiplies by. *)
Definition effective_quantity (quantity : JsValue) : JsValue :=
  if ToBoolean quantity then quantity else JInt 1.

(** The recognised discount kinds. *)
Definition recognised (discountType : JsValue) : Prop :=
  discountType = JStr "amount" \/ discountType = JStr "percent"
  \/ discountType = JStr "fixed".

(* ================================================================= *)
(** * Vocabulary of further statements *)



Definition is_digit (c : ascii) : bool :=
  let n := N_of_ascii c in ((48 <=? n) && (n <=? 57))%N.

Fixpoint all_digits (s : string) : bool :=
  match s with
  | EmptyString => true
  | String c r => is_digit c && all_digits r
  end.

(** A finite Number below [10^21] in magnitude: the ones [toFixed] writes
    in positional notation. *)
Definition positional (x : Num.number) : bool :=
  match x with
  | S754_zero _ => true
  | S754_finite _ m e =>
      negb (10 ^ 21 * Num.denominator e <=? Num.numerator m e)
  | _ => false
  end.

Definition minus_sign (x : Num.number) : string :=
  match x with
  | S754_finite true _ _ => "-"
  | _ => ""
  end.

(** The fraction part [toFixed] writes: nothing for zero digits, else a
    point and the digits. *)
Definition fraction_part (f : Z) (b : string) : string :=
  if 0 <? f then "." ++ b else "".

(* ================================================================= *)
(** * The commit message generator of the tooling scripts

    The script [ai-commit-agent.js] that [smart-commit.sh] runs to word a
    commit: its pure functions, with the result of [analyzeChanges()]
    (which asks git) and the draw of [Math.random()] as arguments. *)

Module CommitAgent.

(** ** Strings *)

(** [s.includes(needle)] *)
Fixpoint includes (s needle : string) : bool :=
  if String.prefix needle s then true
  else
    match s with
    | EmptyString => false
    | String _ rest => includes rest needle
    end.

(** The case folding of a regular expression with the flag [i], which
    relates the letters A to Z to a to z and no other character to an
    ASCII one. *)
Definition fold_case (c : ascii) : ascii :=
  let n := N_of_ascii c in
  if ((65 <=? n) && (n <=? 90))%N then ascii_of_N (n + 32) else c.

Fixpoint fold_cases (s : string) : string :=
  match s with
  | EmptyString => EmptyString
  | String c rest => String (fold_case c) (fold_cases rest)
  end.

Definition ends_with (s suffix : string) : bool :=
  let n := String.length s in
  let k := String.length suffix in
  (k <=? n)%nat && String.eqb (substring (n - k) k s) suffix.

(** [f.match(/\.(e1|e2|...)$/i)] as a condition, for extensions written
    in lower case. *)
Definition has_extension (extensions : list string) (f : string) : bool :=
  existsb (fun e => ends_with (fold_cases f) ("." ++ e)) extensions.

Fixpoint has_char (c : ascii) (s : string) : bool :=
  match s with
  | EmptyString => false
  | String d rest => Ascii.eqb c d || has_char c rest
  end.

(** [s.split(c)] for a one-character separator. *)
Fixpoint split (c : ascii) (s : string) : list string :=
  match s with
  | EmptyString => [EmptyString]
  | String d rest =>
      if Ascii.eqb c d then EmptyString :: split c rest
      else
        match split c rest with
        | [] => [String d EmptyString]
        | first :: others => String d first :: others
        end
  end.

(** [s.split('/').pop()]: what follows the last slash. *)
Definition last_segment (s : string) : string :=
  List.last (split "/" s) EmptyString.

(** [s.replace(/\.[^.]+$/, '')]: the last point and what follows it are
    dropped, when something follows it. *)
Fixpoint strip_extension (s : string) : string :=
  match s with
  | EmptyString => EmptyString
  | String c rest =>
      if Ascii.eqb c "." && negb (has_char "." rest)
         && negb (String.eqb rest "")
      then EmptyString
      else String c (strip_extension rest)
  end.

(** [GetSubstitution] for a pattern that is a string (no captures): in
    the replacement text [$$] stands for a dollar, [$&] for the match,
    [$`] and [$'] for what is before and after it. *)
Fixpoint substitution (matched before after template : string) : string :=
  match template with
  | EmptyString => EmptyString
  | String c rest =>
      if Ascii.eqb c "$" then
        match rest with
        | EmptyString => String c EmptyString
        | String d rest' =>
            if Ascii.eqb d "$" then
              String "$" (substitution matched before after rest')
            else if Ascii.eqb d "&" then
              matched ++ substitution matched before after rest'
            else if Ascii.eqb d "`" then
              before ++ substitution matched before after rest'
            else if Ascii.eqb d "'" then
              after ++ substitution matched before after rest'
            else String c (substitution matched before after rest)
        end
      else String c (substitution matched before after rest)
  end.

(** [s.replace(pattern, replacement)] for a pattern that is a string: the
    first occurrence only. *)
Definition replace_first (s pattern replacement : string) : string :=
  match String.index 0 pattern s with
  | None => s
  | Some i =>
      let before := substring 0 i s in
      let j := (i + String.length pattern)%nat in
      let after := substring j (String.length s - j) s in
      before ++ substitution pattern before after replacement ++ after
  end.

(** ** Reading a property of an object literal *)

(** What [Object.prototype] has for every object. *)
Definition object_prototype_names : list string :=
  ["constructor"; "__defineGetter__"; "__defineSetter__"; "hasOwnProperty";
   "__lookupGetter__"; "__lookupSetter__"; "isPrototypeOf";
   "propertyIsEnumerable"; "toString"; "valueOf"; "__proto__";
   "toLocaleString"].

(** [table[key]]: an own property, a built-in inherited from the
    prototype (a function, or the prototype itself: truthy, without
    elements), or [undefined]. *)
Inductive member (A : Type) : Type :=
| Own (a : A)
| Inherited
| Absent.

Arguments Own {A} a.
Arguments Inherited {A}.
Arguments Absent {A}.

Fixpoint own {A : Type} (table : list (string * A)) (key : string)
  : option A :=
  match table with
  | [] => None
  | (k, a) :: rest => if String.eqb k key then Some a else own rest key
  end.

Definition get_member {A : Type} (table : list (string * A)) (key : string)
  : member A :=
  match own table key with
  | Some a => Own a
  | None =>
      if existsb (String.eqb key) object_prototype_names then Inherited
      else Absent
  end.

(** [found || fallback] *)
Definition or_else {A : Type} (found : member A) (fallback : A) : member A :=
  match found with
  | Absent => Own fallback
  | _ => found
  end.

(** [scopes[i]] *)
Definition element (array : member (list string)) (i : nat) : JsValue :=
  match array with
  | Own l =>
      match nth_error l i with
      | Some s => JStr s
      | None => JUndefined
      end
  | _ => JUndefined
  end.

(** ** The script *)

(** [FILES]: the third argument of the command line, when there is one,
    cut at the spaces, without the pieces that are blank. *)
Definition blank (f : string) : bool :=
  match Str.trim (Str.bytes f) with
  | [] => true
  | _ => false
  end.

Definition FILES (argument : option string) : list string :=
  filter (fun f => negb (blank f))
    (split " " match argument with Some a => a | None => "" end).

(** The list [smart-commit.sh] hands over as that argument: every file of
    a category with a space behind it ([files_frontend+="$file "]). *)
Definition file_argument (files : list string) : string :=
  fold_right (fun f rest => f ++ " " ++ rest) "" files.

Definition PROJECT_SCOPES : list (string * list string) :=
  [("frontend", ["web"; "ui"; "components"; "pages"; "styles"]);
   ("mobile", ["app"; "flutter"; "ios"; "android"; "mobile"]);
   ("backend", ["api"; "server"; "database"; "auth"; "models"]);
   ("infrastructure", ["infra"; "deploy"; "docker"; "ci"; "terraform"]);
   ("docs", ["docs"; "readme"; "guide"])].

(** What the script reads of the result of [analyzeChanges()]: whether
    the three flags are truthy (they are absent when git fails), and the
    number of files. *)
Record Analysis : Type := {
  hasAdditions : bool;
  hasDeletions : bool;
  hasNewFiles : bool;
  totalFiles : Z
}.

Definition determineCommitType (analysis : Analysis) (files : list string)
  : string :=
  if hasNewFiles analysis
     || existsb (fun f => includes f "component" || includes f "page") files
  then "feat"
  else if existsb (fun f => includes f "fix" || includes f "bug") files
          || (hasDeletions analysis && hasAdditions analysis)
  then "fix"
  else if forallb (has_extension ["md"; "txt"; "rst"]) files
  then "docs"
  else if existsb (has_extension ["css"; "scss"; "sass"; "less"; "styl"])
            files
  then "style"
  else if existsb (fun f => includes f "test" || includes f "spec") files
  then "test"
  else if existsb
            (has_extension ["json"; "yaml"; "yml"; "toml"; "ini"; "conf"])
            files
          || existsb (fun f => includes f "config" || includes f "docker"
                               || includes f ".env") files
  then "chore"
  else if hasAdditions analysis && hasDeletions analysis
          && negb (hasNewFiles analysis)
  then "refactor"
  else if hasAdditions analysis then "feat" else "chore".

Definition determineScope (projectType : string) (files : list string)
  : JsValue :=
  let scopes := or_else (get_member PROJECT_SCOPES projectType) ["core"] in
  (fix scan (files : list string) : JsValue :=
     match files with
     | [] => element scopes 0
     | file :: rest =>
         if includes file "component" then
           js_or (element scopes 2) (element scopes 0)
         else if includes file "page" || includes file "route" then
           js_or (element scopes 3) (element scopes 0)
         else if includes file "style" || includes file "css" then
           js_or (element scopes 4) (element scopes 0)
         else if includes file "model" || includes file "database" then
           js_or (element scopes 4) (element scopes 0)
         else if includes file "api" || includes file "controller" then
           element scopes 0
         else if includes file "test" || includes file "spec" then
           JStr "test"
         else if includes file "config" || includes file "env" then
           JStr "config"
         else scan rest
     end) files.

Definition descriptions (scope : string) : list (string * list string) :=
  [("feat", ["add new " ++ scope ++ " functionality";
             "implement " ++ scope ++ " features";
             "introduce " ++ scope ++ " enhancements";
             "create new " ++ scope ++ " module"]);
   ("fix", ["resolve " ++ scope ++ " issues";
            "fix " ++ scope ++ " bugs and errors";
            "correct " ++ scope ++ " functionality";
            "patch " ++ scope ++ " problems"]);
   ("refactor", ["refactor " ++ scope ++ " code structure";
                 "improve " ++ scope ++ " code organization";
                 "optimize " ++ scope ++ " implementation";
                 "restructure " ++ scope ++ " modules"]);
   ("style", ["update " ++ scope ++ " styling";
              "improve " ++ scope ++ " visual design";
              "enhance " ++ scope ++ " appearance";
              "modify " ++ scope ++ " styles"]);
   ("docs", ["update " ++ scope ++ " documentation";
             "improve " ++ scope ++ " guides";
             "enhance " ++ scope ++ " readme";
             "add " ++ scope ++ " documentation"]);
   ("chore", ["update " ++ scope ++ " configuration";
              "maintain " ++ scope ++ " dependencies";
              "improve " ++ scope ++ " build process";
              "update " ++ scope ++ " tooling"])].

(** The texts to draw from: [descriptions[commitType] || [...]]. *)
Definition options (commitType scope : string) : member (list string) :=
  or_else (get_member (descriptions scope) commitType)
    ["update " ++ scope ++ " components"].

(** [generateDescription(commitType, scope, files, analysis)] when
    [Math.floor(Math.random() * options.length)] is [pick], an index of
    [options]. *)
Definition generateDescription (pick : nat) (commitType : string)
  (scope : JsValue) (files : list string) (analysis : Analysis)
  : completion JsValue :=
  let fileCount := totalFiles analysis in
  text <- template scope ;;
  let description := element (options commitType text) pick in
  if 5 <? fileCount then
    d <- ToString description ;;
    Ok (JStr (d ++ " (" ++ Num.Number_toString (Num.of_Z fileCount)
                ++ " files)"))
  else if fileCount =? 1 then
    match files with
    | [] => Throw TypeError
    | first :: _ =>
        let fileName := strip_extension (last_segment first) in
        match description with
        | JStr d => Ok (JStr (replace_first d "components" fileName))
        | _ => Throw TypeError
        end
    end
  else Ok description.

Definition emojis : list (string * string) :=
  [("feat", "✨"); ("fix", "🐛"); ("docs", "📝"); ("style", "💄");
   ("refactor", "♻️"); ("perf", "⚡"); ("test", "✅"); ("chore", "🔧");
   ("ci", "👷"); ("build", "📦")].

(** [getCommitEmoji(commitType)]; [Inherited] when the result is a
    built-in of [Object.prototype]. *)
Definition getCommitEmoji (commitType : string) : member string :=
  or_else (get_member emojis commitType) "🚀".

(** [generateCommitMessage()]: the line it prints, for the globals
    [PROJECT_TYPE] and [FILES]; [Inherited] when the line would hold the
    text of a built-in. *)
Definition generateCommitMessage (PROJECT_TYPE : string)
  (FILES : list string) (analysis : Analysis) (pick : nat)
  : completion (member string) :=
  match FILES with
  | [] => Ok (Own "chore: update project files")
  | _ =>
      let commitType := determineCommitType analysis FILES in
      let scope := determineScope PROJECT_TYPE FILES in
      description <- generateDescription pick commitType scope FILES
                       analysis ;;
      match getCommitEmoji commitType with
      | Own emoji =>
          s <- template scope ;;
          d <- template description ;;
          Ok (Own (emoji ++ " " ++ commitType ++ "(" ++ s ++ "): " ++ d))
      | _ => Ok Inherited
      end
  end.

(** The lists a scope is taken from: those of [PROJECT_SCOPES] and the
    list for an unknown project type. *)
Definition scope_lists : list (list string) :=
  ["core"] :: map snd PROJECT_SCOPES.

End CommitAgent.

(* ================================================================= *)
(** * Basic facts about the run time *)

Arguments Num.of_Z : simpl never.
Arguments Num.of_decimal : simpl never.
Arguments Num.Number_toString : simpl never.
Arguments Num.toFixed_digits : simpl never.
Arguments Num.Math_floor : simpl never.
Arguments Str.StringToNumber : simpl never.
Arguments Num.sub : simpl never.
Arguments Num.mul : simpl never.
Arguments Num.div : simpl never.
Arguments Num.ltb : simpl never.

Lemma strict_eq_str_true (v : JsValue) (literal : string) :
  strict_eq_str v literal = true <-> v = JStr literal.
Proof.
  destruct v; simpl; try (split; [discriminate | intros H; discriminate H]).
  rewrite String.eqb_eq. split; [intros -> | intros [= ->]]; reflexivity.
Qed.

Lemma strict_eq_str_false (v : JsValue) (literal : string) :
  strict_eq_str v literal = false <-> v <> JStr literal.
Proof.
  rewrite <- strict_eq_str_true. destruct (strict_eq_str v literal); split;
    congruence.
Qed.

Lemma ToPrimitive_primitive (v : JsValue) :
  is_primitive v = true -> ToPrimitive v = Ok v.
Proof. unfold ToPrimitive. intros ->. reflexivity. Qed.

Lemma ToNumber_primitive (v : JsValue) :
  is_primitive v = true -> returns (ToNumber v).
Proof.
  intros H. unfold ToNumber. rewrite (ToPrimitive_primitive v H). simpl.
  eexists. reflexivity.
Qed.

Lemma ToString_primitive (v : JsValue) :
  is_primitive v = true -> returns (ToString v).
Proof. destruct v; simpl; try discriminate; intros _; eexists; reflexivity. Qed.

Lemma ToNumber_JNum (x : Num.number) : ToNumber (JNum x) = Ok x.
Proof. reflexivity. Qed.

Lemma ToNumber_JInt (n : Z) : ToNumber (JInt n) = Ok (Num.of_Z n).
Proof. reflexivity. Qed.

(** [discount > 0] and [discount <= 0] exclude each other: both read the
    same comparison. *)
Lemma js_le_gt (v : JsValue) (x : Num.number) :
  js_le v x = Ok true -> js_gt v x = Ok false.
Proof.
  unfold js_le, js_gt. destruct (IsLessThan x v) as [[[|]|]|]; simpl;
    congruence.
Qed.

Lemma js_gt_number (v : JsValue) (x y : Num.number) :
  ToNumber v = Ok y ->
  js_gt v x = Ok (negb (Num.is_nan x || Num.is_nan y) && Num.ltb x y).
Proof.
  intros H. unfold js_gt, IsLessThan. rewrite H. simpl.
  destruct (Num.is_nan x || Num.is_nan y); reflexivity.
Qed.

Lemma append_empty (a b : string) : a ++ b = "" -> a = "" /\ b = "".
Proof. destruct a; simpl; [auto | discriminate]. Qed.

Lemma append_assoc (a b c : string) : (a ++ b) ++ c = a ++ (b ++ c).
Proof. induction a; simpl; congruence. Qed.

Lemma append_empty_r (a : string) : a ++ "" = a.
Proof. induction a; simpl; congruence. Qed.

Lemma formatted_infinity (state needDecimal : JsValue) (s : bool)
  (numeric : string) :
  formatted_number state needDecimal (S754_infinity s) = Ok numeric ->
  numeric = (if s then "-" else "") ++ "Infinity".
Proof.
  unfold formatted_number, toFixed.
  destruct (wants_decimals needDecimal).
  - destruct (ToIntegerOrInfinity (decimals state)) as [[f | |] |]; simpl;
      try discriminate.
    destruct ((f <? 0) || (100 <? f)); [discriminate |].
    intros [= <-]. reflexivity.
  - intros [= <-]. reflexivity.
Qed.

(** ** The run time on known results *)

Example Number_toString_known :
  map Num.Number_toString
    [Num.div (Num.of_Z 1) (Num.of_Z 3); Num.of_decimal false 1 21;
     Num.of_decimal false 1 (-7); Num.of_Z (2 ^ 60); Num.of_decimal true 5 (-1);
     S754_zero true; Num.of_decimal false 5 (-324)]
  = ["0.3333333333333333"; "1e+21"; "1e-7"; "1152921504606847000"; "-0.5";
     "0"; "5e-324"].
Proof. vm_compute. reflexivity. Qed.

Example toFixed_known :
  map (fun p => Num.toFixed_digits (fst p) (snd p))
    [(Num.of_decimal false 1005 (-3), 2); (Num.of_decimal false 25 (-1), 0);
     (Num.of_decimal true 1 (-3), 2); (Num.of_decimal false 1 21, 2);
     (Num.of_decimal false 123456 (-2), 1)]
  = ["1.00"; "3"; "-0.00"; "1e+21"; "1234.6"].
Proof. vm_compute. reflexivity. Qed.

Example StringToNumber_known :
  map (fun s => Num.Number_toString (Str.StringToNumber s))
    ["abc"; ""; "  12.5  "; "-0"; "0x1F"; "-0x1F"; "Infinity"; "1e3"; "5.";
     ".5"; "."; "1e"; "12px"; "1e400"]
  = ["NaN"; "0"; "12.5"; "0"; "31"; "NaN"; "Infinity"; "1000"; "5"; "0.5";
     "NaN"; "NaN"; "NaN"; "Infinity"].
Proof. vm_compute. reflexivity. Qed.

Example ToString_known :
  ToString (JArr [JInt 1; JNull; JArr [JBool true; JStr "x"]; JObj []])
  = Ok "1,,true,x,[object Object]"
  /\ ToString (JObj [("toString", JInt 1)]) = Throw TypeError
  /\ ToNumber (JArr [JStr "5"]) = Ok (Num.of_Z 5).
Proof. vm_compute. repeat split. Qed.

(* ================================================================= *)
(** * Integers as Numbers, and [Math.floor]

    The Number for an integer below [2^53] is exact, which is what makes
    [Math.floor] return the integer it computes. *)

Ltac stdlib_Z :=
  change IntDef.Z.add with Z.add in *;
  change IntDef.Z.sub with Z.sub in *;
  change IntDef.Z.mul with Z.mul in *;
  change IntDef.Z.opp with Z.opp in *;
  change IntDef.Z.max with Z.max in *;
  change IntDef.Z.min with Z.min in *;
  change IntDef.Z.leb with Z.leb in *;
  change IntDef.Z.eqb with Z.eqb in *;
  change IntDef.Z.compare with Z.compare in *.

Lemma digits2_size (p : positive) : digits2_pos p = Pos.size p.
Proof. induction p; simpl; congruence. Qed.

Lemma size_bound (p : positive) (k : Z) :
  0 <= k -> Zpos p < 2 ^ k -> Zpos (Pos.size p) <= k.
Proof.
  intros Hk Hp.
  destruct (Z_le_gt_dec (Zpos (Pos.size p)) k) as [H | H];
    [exact H | exfalso].
  pose proof (Pos.size_le p) as Hle.
  assert (H2 : 2 ^ (Z.succ k) <= 2 ^ Zpos (Pos.size p))
    by (apply Z.pow_le_mono_r; lia).
  rewrite Z.pow_succ_r in H2 by lia.
  assert (Hc : Zpos (2 ^ Pos.size p) <= Zpos p~0) by exact Hle.
  rewrite Pos2Z.inj_pow in Hc. lia.
Qed.

Lemma iter_xO_mul (p k : positive) :
  Zpos (Pos.iter xO p k) = Zpos p * 2 ^ Zpos k.
Proof.
  revert p. induction k using Pos.peano_ind; intros p.
  - simpl. lia.
  - rewrite Pos.iter_succ, Pos2Z.inj_succ, Z.pow_succ_r by lia.
    rewrite Pos2Z.inj_xO, IHk. lia.
Qed.

Lemma iter_xO_size (p k : positive) :
  Pos.size (Pos.iter xO p k) = (Pos.size p + k)%positive.
Proof.
  induction k using Pos.peano_ind.
  - simpl. lia.
  - rewrite Pos.iter_succ. simpl. rewrite IHk. lia.
Qed.

Lemma round_aux_exact (sx : bool) (m : positive) (e : Z) :
  Zpos (Pos.size m) = 53 -> -1074 <= e <= 971 ->
  binary_round_aux 53 1024 sx (Zpos m) e loc_Exact = S754_finite sx m e.
Proof.
  intros Hm He.
  assert (F : fexp 53 1024 (53 + e) - e = 0)
    by (unfold fexp, SpecFloat.emin; lia).
  unfold binary_round_aux, shr_fexp. simpl Zdigits2. stdlib_Z.
  rewrite digits2_size, Hm, F.
  cbv beta iota delta [shr shr_record_of_loc shr_m loc_of_shr_record
                         round_nearest_even Zdigits2].
  stdlib_Z. rewrite digits2_size, Hm, F.
  cbv beta iota. stdlib_Z. change (1024 - 53) with 971.
  destruct (Z.leb_spec e 971); [reflexivity | lia].
Qed.

Lemma of_Z_exact (s : bool) (p : positive) :
  Zpos p < 2 ^ 53 ->
  exists k : Z,
    0 <= k
    /\ Num.of_Z (Num.signed s p)
       = S754_finite s (Z.to_pos (Zpos p * 2 ^ k)) (- k).
Proof.
  intros Hp. pose proof (size_bound p 53 ltac:(lia) Hp) as Hd.
  assert (Hpos : 0 < Zpos (Pos.size p)) by lia.
  exists (53 - Zpos (Pos.size p)). split; [lia |].
  assert (E : forall sx, binary_round Num.prec Num.emax sx p 0
     = S754_finite sx (Z.to_pos (Zpos p * 2 ^ (53 - Zpos (Pos.size p))))
         (- (53 - Zpos (Pos.size p)))).
  { intros sx. unfold binary_round. stdlib_Z.
    rewrite digits2_size, Z.add_0_r.
    unfold Num.prec, Num.emax.
    assert (F : fexp 53 1024 (Zpos (Pos.size p)) = Zpos (Pos.size p) - 53)
      by (unfold fexp, SpecFloat.emin; lia).
    rewrite F. unfold shl_align. stdlib_Z. rewrite Z.sub_0_r.
    destruct (Zpos (Pos.size p) - 53) as [| k | k] eqn:Ek; try lia.
    - replace (53 - Zpos (Pos.size p)) with 0 by lia.
      rewrite Z.pow_0_r, Z.mul_1_r. simpl Z.to_pos. simpl Z.opp.
      apply round_aux_exact; lia.
    - replace (53 - Zpos (Pos.size p)) with (Zpos k) by lia.
      rewrite <- iter_xO_mul. simpl Z.to_pos. simpl Z.opp.
      apply round_aux_exact; [| lia].
      rewrite iter_xO_size. lia. }
  unfold Num.of_Z, binary_normalize, Num.signed. destruct s; apply E.
Qed.

Lemma signed_opp (s : bool) (p : positive) :
  Num.signed s p = if s then - Zpos p else Zpos p.
Proof. destruct s; reflexivity. Qed.

Lemma to_Z_of_Z (s : bool) (p : positive) :
  Zpos p < 2 ^ 53 ->
  Num.to_Z (Num.of_Z (Num.signed s p)) = Some (Num.signed s p).
Proof.
  intros Hp. destruct (of_Z_exact s p Hp) as (k & Hk & ->).
  assert (H2 : 0 < 2 ^ k) by (apply Z.pow_pos_nonneg; lia).
  unfold Num.to_Z. rewrite Z.opp_involutive, !signed_opp.
  rewrite Z2Pos.id by lia.
  destruct (Z.leb_spec 0 (- k)).
  - replace k with 0 by lia. simpl Z.opp. rewrite Z.pow_0_r.
    f_equal. destruct s; lia.
  - rewrite Z.mod_mul, Z.eqb_refl by lia.
    f_equal. destruct s.
    + rewrite <- Z.mul_opp_l, Z.div_mul by lia. reflexivity.
    + rewrite Z.div_mul by lia. reflexivity.
Qed.

Lemma to_Z_of_Z_nonzero (n : Z) :
  n <> 0 -> Z.abs n < 2 ^ 53 -> Num.to_Z (Num.of_Z n) = Some n.
Proof.
  intros Hn Hb. destruct n as [| p | p]; [congruence | |].
  - apply (to_Z_of_Z false p). lia.
  - apply (to_Z_of_Z true p). lia.
Qed.

Lemma valid_mantissa (s : bool) (m : positive) (e : Z) :
  Num.valid (S754_finite s m e) = true -> Zpos m < 2 ^ 53.
Proof.
  unfold Num.valid, valid_binary, bounded, canonical_mantissa, Num.prec,
    Num.emax.
  stdlib_Z. rewrite andb_true_iff, Z.eqb_eq, digits2_size.
  unfold fexp, SpecFloat.emin. stdlib_Z. intros [H _].
  assert (Hd : Zpos (Pos.size m) <= 53) by lia.
  pose proof (Pos.size_gt m) as Hgt.
  assert (Hz : Zpos m < Zpos (2 ^ Pos.size m)) by exact Hgt.
  rewrite Pos2Z.inj_pow in Hz.
  assert (2 ^ Zpos (Pos.size m) <= 2 ^ 53) by (apply Z.pow_le_mono_r; lia).
  lia.
Qed.

Lemma Math_floor_nonnegative (m : positive) (e : Z) :
  Num.Math_floor (S754_finite false m e)
  = Num.truncate_toward_zero (S754_finite false m e).
Proof.
  unfold Num.Math_floor, Num.truncate_toward_zero, Num.signed.
  destruct (Z.leb_spec 0 e); [reflexivity |].
  rewrite Z.quot_div_nonneg; [reflexivity | lia |].
  apply Z.pow_pos_nonneg; lia.
Qed.

Lemma Math_floor_negative (m : positive) (e : Z) :
  Num.valid (S754_finite true m e) = true ->
  Num.to_Z (S754_finite true m e) = None ->
  exists n,
    Num.to_Z (Num.Math_floor (S754_finite true m e)) = Some n
    /\ Num.to_Z (Num.truncate_toward_zero (S754_finite true m e))
       = Some (n + 1)
    /\ n * 2 ^ (- e) < Zneg m < (n + 1) * 2 ^ (- e).
Proof.
  intros Hv Hfrac. apply valid_mantissa in Hv.
  unfold Num.to_Z in Hfrac.
  unfold Num.Math_floor, Num.truncate_toward_zero, Num.signed.
  destruct (Z.leb_spec 0 e) as [He | He]; [discriminate Hfrac |].
  assert (Hpow : 2 <= 2 ^ (- e)).
  { change 2 with (2 ^ 1) at 1. apply Z.pow_le_mono_r; lia. }
  destruct (Z.eqb_spec (Zpos m mod 2 ^ (- e)) 0) as [| Hmod];
    [discriminate Hfrac |]. clear Hfrac.
  set (d := 2 ^ (- e)) in *.
  pose proof (Z.div_mod (Zpos m) d ltac:(lia)) as Hdm.
  pose proof (Z.mod_pos_bound (Zpos m) d ltac:(lia)) as Hbound.
  assert (Hq : 0 <= Zpos m / d) by (apply Z.div_pos; lia).
  assert (Hfloor : Zneg m / d = - (Zpos m / d) - 1).
  { symmetry. apply (Z.div_unique_pos _ _ _ (d - Zpos m mod d)); [lia |].
    change (Zneg m) with (- Zpos m). nia. }
  assert (Htrunc : Z.quot (Zneg m) d = - (Zpos m / d)).
  { change (Zneg m) with (- Zpos m).
    rewrite Z.quot_opp_l, Z.quot_div_nonneg by lia. reflexivity. }
  rewrite Hfloor, Htrunc.
  exists (- (Zpos m / d) - 1).
  assert (Hsmall : Zpos m / d + 1 <= Zpos m) by nia.
  split; [| split].
  - destruct (Z.eqb_spec (- (Zpos m / d) - 1) 0); [lia |].
    apply to_Z_of_Z_nonzero; lia.
  - destruct (Z.eqb_spec (- (Zpos m / d)) 0) as [E | E].
    + simpl. f_equal. lia.
    + rewrite to_Z_of_Z_nonzero by lia. f_equal. lia.
  - change (Zneg m) with (- Zpos m). nia.
Qed.

(* ================================================================= *)
(** * [getAmountWithSign] *)

Section AmountWithSign.

Variable state : JsValue.

Lemma getAmountWithSign_rejected (amount needDecimal : JsValue) :
  is_nullish amount = true \/ ToNumber amount = Ok Num.NaN ->
  getAmountWithSign state amount needDecimal = Ok "".
Proof.
  unfold getAmountWithSign, isNaN_Number. intros [H | H].
  - rewrite H. reflexivity.
  - rewrite H. destruct (is_nullish amount); reflexivity.
Qed.

Lemma getAmountWithSign_numeric
  (amount needDecimal : JsValue) (x : Num.number) :
  numeric_amount amount x ->
  getAmountWithSign state amount needDecimal
  = numeric <- formatted_number state needDecimal x ;;
    currency <- ToString (symbol state) ;;
    Ok (placed state currency numeric).
Proof.
  intros (Hnull & Hx & Hnan).
  unfold getAmountWithSign, isNaN_Number, formatted_number, placed,
    wants_decimals, template.
  rewrite Hnull, Hx. simpl bind. rewrite Hnan.
  fold (configData state). fold (decimals state). fold (symbol state).
  fold (direction state).
  destruct (ToBoolean _).
  - destruct (toFixed x (decimals state)) as [s |]; simpl; [| reflexivity].
    destruct (strict_eq_str (direction state) "left");
      destruct (ToString (symbol state)); reflexivity.
  - simpl.
    destruct (strict_eq_str (direction state) "left");
      destruct (ToString (symbol state)); reflexivity.
Qed.

(** C7.  For an amount that gets past the guard, the result is the
    formatted numeric string with the currency symbol before it when the
    configured position is "left" and after it otherwise; and a store
    without the configuration fields yields the defaults: two fraction
    digits, the empty symbol, the position "left". *)
Theorem getAmountWithSign_symbol_placement
  (amount needDecimal : JsValue) (x : Num.number) (currency numeric : string) :
  numeric_amount amount x ->
  formatted_number state needDecimal x = Ok numeric ->
  ToString (symbol state) = Ok currency ->
  getAmountWithSign state amount needDecimal
  = Ok (placed state currency numeric)
  /\ (direction state = JStr "left" ->
      placed state currency numeric = currency ++ numeric)
  /\ (direction state <> JStr "left" ->
      placed state currency numeric = numeric ++ currency)
  /\ (forall position,
        OptionalGet (configData state) "currency_symbol_direction"
        = JStr position ->
        position <> "" -> direction state = JStr position)
  /\ (forall sign,
        OptionalGet (configData state) "currency_symbol" = JStr sign ->
        symbol state = JStr sign)
  /\ (is_nullish (OptionalGet (configData state) "digit_after_decimal_point")
      = true -> decimals state = JInt 2)
  /\ (OptionalGet (configData state) "currency_symbol" = JUndefined ->
      symbol state = JStr "")
  /\ (OptionalGet (configData state) "currency_symbol_direction" = JUndefined
      -> direction state = JStr "left").
Proof.
  intros Hx Hnum Hsym.
  split; [| split; [| split; [| split; [| split; [| split; [| split]]]]]].
  - rewrite (getAmountWithSign_numeric amount needDecimal x Hx), Hnum, Hsym.
    reflexivity.
  - unfold placed. intros ->. reflexivity.
  - unfold placed. intros H. apply strict_eq_str_false in H. rewrite H.
    reflexivity.
  - unfold direction, js_or. intros position -> Hp. simpl.
    destruct (String.eqb_spec position ""); [contradiction | reflexivity].
  - unfold symbol, js_or. intros sign ->. simpl.
    destruct (String.eqb_spec sign ""); [subst |]; reflexivity.
  - unfold decimals, nullish_or. intros ->. reflexivity.
  - unfold symbol. intros ->. reflexivity.
  - unfold direction. intros ->. reflexivity.
Qed.

(** C4 (amended).  An amount that is null or undefined, or whose
    conversion to a Number is NaN, is answered with the empty string,
    whatever the flag and the configuration. *)
Theorem getAmountWithSign_rejects_NaN (amount needDecimal : JsValue) :
  (is_nullish amount = true \/ ToNumber amount = Ok Num.NaN ->
   getAmountWithSign state amount needDecimal = Ok "")
  /\ ToNumber (JStr "abc") = Ok Num.NaN
  /\ (forall s,
        getAmountWithSign state (JNum (S754_infinity s)) needDecimal <> Ok "").
Proof.
  split; [apply getAmountWithSign_rejected | split; [reflexivity |]].
  intros s.
  rewrite (getAmountWithSign_numeric (JNum (S754_infinity s))
             needDecimal (S754_infinity s))
    by (repeat split; reflexivity).
  destruct (formatted_number state needDecimal (S754_infinity s))
    as [numeric |] eqn:Hnum; simpl; [| discriminate].
  apply formatted_infinity in Hnum.
  destruct (ToString (symbol state)) as [currency |]; simpl; [| discriminate].
  intros [= H]. unfold placed in H.
  destruct (strict_eq_str (direction state) "left");
    apply append_empty in H; destruct H as [H1 H2]; subst;
    destruct s; discriminate.
Qed.

(** C1 (amended).  Without decimals the amount is rounded down, toward
    minus infinity, before the symbol is attached: the numeric part is
    [Math.floor] of the amount.  On amounts that are not negative this is
    the truncation toward zero; on a negative amount with a fractional
    part it is one below the truncation. *)
Theorem getAmountWithSign_rounds_down
  (amount : JsValue) (x : Num.number) (currency : string) :
  numeric_amount amount x ->
  ToString (symbol state) = Ok currency ->
  getAmountWithSign state amount (JBool false)
  = Ok (placed state currency (Num.Number_toString (Num.Math_floor x)))
  /\ (forall m e, x = S754_finite false m e ->
        Num.Math_floor x = Num.truncate_toward_zero x)
  /\ (forall m e, x = S754_finite true m e -> Num.valid x = true ->
        Num.to_Z x = None ->
        exists n, Num.to_Z (Num.Math_floor x) = Some n
                  /\ Num.to_Z (Num.truncate_toward_zero x) = Some (n + 1)
                  /\ n * 2 ^ (- e) < Zneg m < (n + 1) * 2 ^ (- e)).
Proof.
  intros Hx Hsym. split; [| split].
  - rewrite (getAmountWithSign_numeric amount (JBool false) x Hx).
    unfold formatted_number. simpl. rewrite Hsym. reflexivity.
  - intros m e ->. apply Math_floor_nonnegative.
  - intros m e ->. apply Math_floor_negative.
Qed.

Lemma getAmountWithSign_returns (amount needDecimal : JsValue) :
  is_primitive amount = true ->
  is_primitive (symbol state) = true ->
  (wants_decimals needDecimal = true ->
   exists f, fraction_digits (decimals state) f) ->
  returns (getAmountWithSign state amount needDecimal).
Proof.
  intros Ha Hs Hd. destruct (ToNumber_primitive amount Ha) as [x Hx].
  destruct (is_nullish amount) eqn:Hnull.
  { exists "". apply getAmountWithSign_rejected. auto. }
  destruct (Num.is_nan x) eqn:Hnan.
  { exists "". apply getAmountWithSign_rejected. right.
    destruct x; try discriminate Hnan. exact Hx. }
  rewrite (getAmountWithSign_numeric amount needDecimal x
             (conj Hnull (conj Hx Hnan))).
  destruct (ToString_primitive _ Hs) as [currency ->].
  unfold formatted_number, toFixed.
  destruct (wants_decimals needDecimal).
  - destruct (Hd eq_refl) as (f & -> & Hf). simpl.
    destruct (Z.ltb_spec f 0); [lia |].
    destruct (Z.ltb_spec 100 f); [lia |]. simpl. eexists. reflexivity.
  - simpl. eexists. reflexivity.
Qed.

Lemma getAmountWithSign_RangeError
  (amount needDecimal : JsValue) (x : Num.number) (r : integer_or_infinity) :
  numeric_amount amount x ->
  wants_decimals needDecimal = true ->
  ToIntegerOrInfinity (decimals state) = Ok r ->
  out_of_range r ->
  getAmountWithSign state amount needDecimal = Throw RangeError.
Proof.
  intros Hx Hw Hr Hout.
  rewrite (getAmountWithSign_numeric amount needDecimal x Hx).
  unfold formatted_number, toFixed. rewrite Hw, Hr. simpl.
  destruct r as [f | |]; try reflexivity. simpl in Hout.
  destruct (Z.ltb_spec f 0); [reflexivity |].
  destruct (Z.ltb_spec 100 f); [reflexivity | lia].
Qed.

End AmountWithSign.

(* ================================================================= *)
(** * [getDiscountedAmount] *)

Section Discount.

Variables price discount discountType storeDiscount quantity : JsValue.

(** What the function does once [discount > 0] is known. *)
Lemma getDiscountedAmount_positive :
  js_gt discount (Num.of_Z 0) = Ok true ->
  getDiscountedAmount price discount discountType storeDiscount quantity
  = if strict_eq_str discountType "amount" then
      cut <- js_mul discount (effective_quantity quantity) ;;
      js_sub price cut
    else if strict_eq_str discountType "percent"
            || strict_eq_str discountType "fixed" then
      rate <- js_div discount (JInt 100) ;;
      cut <- js_mul rate price ;;
      js_sub price cut
    else Ok price.
Proof. unfold getDiscountedAmount. intros ->. reflexivity. Qed.

Lemma getDiscountedAmount_not_positive :
  js_gt discount (Num.of_Z 0) = Ok false ->
  getDiscountedAmount price discount discountType storeDiscount quantity
  = Ok price.
Proof. unfold getDiscountedAmount. intros ->. reflexivity. Qed.

Lemma unrecognised_kind :
  ~ recognised discountType ->
  strict_eq_str discountType "amount" = false
  /\ strict_eq_str discountType "percent" = false
  /\ strict_eq_str discountType "fixed" = false.
Proof.
  unfold recognised. intros H. repeat split; apply strict_eq_str_false;
    intros E; apply H; auto.
Qed.

(** C5.  For a discount above zero (as Numbers: the discount converts to
    [d] and [0 < d]) the result is price - discount * quantity for the
    kind "amount", where a falsy or absent quantity counts as 1, and
    price - (discount / 100) * price for the kinds "percent" and "fixed",
    whatever the quantity. *)
Theorem getDiscountedAmount_formulas (p d : Num.number) :
  ToNumber price = Ok p ->
  ToNumber discount = Ok d ->
  Num.ltb (Num.of_Z 0) d = true ->
  (discountType = JStr "amount" ->
   forall q, ToNumber (effective_quantity quantity) = Ok q ->
     getDiscountedAmount price discount discountType storeDiscount quantity
     = Ok (JNum (Num.sub p (Num.mul d q))))
  /\ (ToBoolean quantity = false -> effective_quantity quantity = JInt 1)
  /\ (ToBoolean quantity = true -> effective_quantity quantity = quantity)
  /\ (discountType = JStr "percent" \/ discountType = JStr "fixed" ->
      forall anyQuantity,
        getDiscountedAmount price discount discountType storeDiscount
          anyQuantity
        = Ok (JNum (Num.sub p (Num.mul (Num.div d (Num.of_Z 100)) p)))).
Proof.
  intros Hp Hd Hpos.
  assert (Hgt : js_gt discount (Num.of_Z 0) = Ok true).
  { rewrite (js_gt_number _ _ _ Hd), Hpos.
    destruct d; try reflexivity. discriminate Hpos. }
  repeat split.
  - intros Hk q Hq. rewrite (getDiscountedAmount_positive Hgt), Hk. simpl.
    unfold js_mul, js_sub, arith. rewrite Hd, Hq. simpl. rewrite Hp.
    reflexivity.
  - unfold effective_quantity. intros ->. reflexivity.
  - unfold effective_quantity. intros ->. reflexivity.
  - intros Hk anyQuantity. unfold getDiscountedAmount. rewrite Hgt. simpl.
    assert (Hkind : strict_eq_str discountType "amount" = false
                    /\ strict_eq_str discountType "percent"
                       || strict_eq_str discountType "fixed" = true)
      by (destruct Hk as [Hk | Hk]; rewrite Hk; split; reflexivity).
    destruct Hkind as [-> ->].
    unfold js_div, js_mul, js_sub, arith.
    rewrite Hd, ToNumber_JInt. simpl. rewrite Hp. reflexivity.
Qed.

(** C6.  The price comes back untouched when [discount <= 0] holds, and
    also when the kind is none of "amount", "percent" and "fixed" (the
    discount being anything that converts to a Number). *)
Theorem getDiscountedAmount_unchanged :
  (js_le discount (Num.of_Z 0) = Ok true ->
   getDiscountedAmount price discount discountType storeDiscount quantity
   = Ok price)
  /\ (~ recognised discountType ->
      returns (ToNumber discount) ->
      getDiscountedAmount price discount discountType storeDiscount quantity
      = Ok price).
Proof.
  split.
  - intros H. apply getDiscountedAmount_not_positive, js_le_gt, H.
  - intros Hk [d Hd]. apply unrecognised_kind in Hk.
    destruct Hk as (Ha & Hp & Hf).
    unfold getDiscountedAmount. rewrite (js_gt_number _ _ _ Hd). simpl.
    rewrite Ha, Hp, Hf. simpl.
    destruct (negb _ && _); reflexivity.
Qed.

End Discount.

(** C10.  The argument storeDiscount has no influence on the result of
    getDiscountedAmount. *)
Theorem getDiscountedAmount_ignores_storeDiscount
  (price discount discountType quantity : JsValue)
  (storeDiscount storeDiscount' : JsValue) :
  getDiscountedAmount price discount discountType storeDiscount quantity
  = getDiscountedAmount price discount discountType storeDiscount' quantity.
Proof. reflexivity. Qed.

(* ================================================================= *)
(** * [getSelectedAddOn] *)

Lemma checked_not_nullish (item : JsValue) :
  ToBoolean (OptionalGet item "isChecked") = true -> is_nullish item = false.
Proof.
  unfold OptionalGet. destruct (is_nullish item); [discriminate | reflexivity].
Qed.

Lemma append_add_on_carried (item : JsValue) (a : AddOn) (index : Z)
  (add_on : string) :
  carries item a ->
  append_add_on item index add_on
  = Ok (add_on ++ (if isChecked a then separator index ++ name a else "")).
Proof.
  intros [Hc Hn]. unfold append_add_on. rewrite Hc. simpl.
  destruct (isChecked a) eqn:Hchecked.
  - unfold Get. rewrite (checked_not_nullish item), Hn; simpl.
    + unfold separator. destruct (index =? 0); reflexivity.
    + rewrite Hc. reflexivity.
  - rewrite append_empty_r. reflexivity.
Qed.

Lemma label_cons (index : Z) (a : AddOn) (entries : list AddOn) :
  label index (a :: entries)
  = (if isChecked a then separator index ++ name a else "")
    ++ label (index + 1) entries.
Proof.
  unfold label, selected. simpl. destruct (isChecked a); reflexivity.
Qed.

Lemma visit_carried (items : list JsValue) (entries : list AddOn) :
  Forall2 carries items entries ->
  forall index add_on,
    visit append_add_on items index add_on
    = Ok (add_on ++ label index entries).
Proof.
  induction 1 as [| item a items entries Hc _ IH]; intros index add_on.
  - simpl. rewrite append_empty_r. reflexivity.
  - simpl. rewrite (append_add_on_carried item a index add_on Hc). simpl.
    rewrite IH, label_cons, append_assoc. reflexivity.
Qed.

Lemma length_positive (items : list JsValue) :
  array_sized items ->
  js_gt (OptionalGet (JArr items) "length") (Num.of_Z 0)
  = Ok (negb (Nat.eqb (List.length items) 0)).
Proof.
  unfold array_sized. intros Hsize.
  change (OptionalGet (JArr items) "length")
    with (JNum (Num.of_Z (Z.of_nat (List.length items)))).
  rewrite (js_gt_number _ (Num.of_Z 0) _ (ToNumber_JNum _)).
  destruct items as [| item items]; [reflexivity |].
  set (n := Z.of_nat (List.length (item :: items))) in *.
  assert (Hn : 0 < n) by (subst n; simpl List.length; lia).
  destruct n as [| p |]; try lia.
  destruct (of_Z_exact false p) as (k & _ & Hk).
  { assert (2 ^ 32 < 2 ^ 53) by (apply Z.pow_lt_mono_r; lia). lia. }
  simpl Num.signed in Hk. rewrite Hk. reflexivity.
Qed.

Lemma getSelectedAddOn_array (items : list JsValue) :
  array_sized items ->
  getSelectedAddOn (JArr items) = visit append_add_on items 0 "".
Proof.
  intros Hsize. unfold getSelectedAddOn. rewrite (length_positive items Hsize).
  destruct items; reflexivity.
Qed.

Lemma selected_names (index : Z) (entries : list AddOn) :
  map (fun p => name (snd p)) (selected index entries)
  = map name (filter isChecked entries).
Proof.
  revert index. unfold selected.
  induction entries as [| a entries IH]; intros index; simpl; [reflexivity |].
  destruct (isChecked a); simpl; rewrite IH; reflexivity.
Qed.

Lemma label_none (index : Z) (entries : list AddOn) :
  filter isChecked entries = [] -> label index entries = "".
Proof.
  revert index.
  induction entries as [| a entries IH]; intros index; [reflexivity |].
  rewrite label_cons. simpl. destruct (isChecked a); [discriminate |].
  intros H. rewrite (IH _ H). reflexivity.
Qed.

Lemma getSelectedAddOn_label (items : list JsValue) (entries : list AddOn) :
  array_sized items ->
  Forall2 carries items entries ->
  getSelectedAddOn (JArr items) = Ok (label 0 entries).
Proof.
  intros Hsize Hc. rewrite (getSelectedAddOn_array items Hsize).
  rewrite (visit_carried items entries Hc). reflexivity.
Qed.

(** C8.  On an array whose items carry the entries of an add-on selection,
    the result holds the names of exactly the checked entries, in the order
    of the sequence (each behind the separator its position calls for); it
    is the empty string for an empty array, for [null] and [undefined], and
    when no entry is checked. *)
Theorem getSelectedAddOn_checked_names
  (items : list JsValue) (entries : list AddOn) :
  array_sized items ->
  Forall2 carries items entries ->
  getSelectedAddOn (JArr items) = Ok (label 0 entries)
  /\ map (fun p => name (snd p)) (selected 0 entries)
     = map name (filter isChecked entries)
  /\ (filter isChecked entries = [] -> getSelectedAddOn (JArr items) = Ok "")
  /\ getSelectedAddOn (JArr []) = Ok ""
  /\ getSelectedAddOn JNull = Ok ""
  /\ getSelectedAddOn JUndefined = Ok "".
Proof.
  intros Hsize Hc.
  pose proof (getSelectedAddOn_label items entries Hsize Hc) as H.
  split; [exact H | split; [apply selected_names | split]].
  - intros Hnone. rewrite H, (label_none 0 entries Hnone). reflexivity.
  - repeat split.
Qed.

Lemma label_app (index : Z) (l1 l2 : list AddOn) :
  label index (l1 ++ l2)
  = label index l1 ++ label (index + Z.of_nat (List.length l1)) l2.
Proof.
  revert index. induction l1 as [| a l1 IH]; intros index.
  - simpl. rewrite Z.add_0_r. reflexivity.
  - change ((a :: l1) ++ l2)%list with (a :: (l1 ++ l2))%list.
    rewrite !label_cons, IH, append_assoc.
    replace (index + 1 + Z.of_nat (List.length l1))
      with (index + Z.of_nat (List.length (a :: l1)))
      by (simpl List.length; lia).
    reflexivity.
Qed.

(** C2 (the code departs from it).  When the entries before the first
    checked one are unchecked and there is at least one of them, the
    result begins with the separator ", ": the test [index !== 0] looks at
    the position in the whole sequence, not among the checked entries. *)
Theorem getSelectedAddOn_leading_separator
  (items : list JsValue) (skipped : list AddOn) (a : AddOn)
  (later : list AddOn) :
  array_sized items ->
  Forall2 carries items (skipped ++ a :: later) ->
  skipped <> [] ->
  filter isChecked skipped = [] ->
  isChecked a = true ->
  getSelectedAddOn (JArr items)
  = Ok (", " ++ name a
        ++ label (Z.of_nat (List.length skipped) + 1) later).
Proof.
  intros Hsize Hc Hskipped Hnone Hchecked.
  rewrite (getSelectedAddOn_label items _ Hsize Hc).
  rewrite label_app, (label_none 0 skipped Hnone), label_cons, Hchecked.
  simpl. unfold separator.
  destruct (Z.eqb_spec (Z.of_nat (List.length skipped)) 0) as [E | _].
  - destruct skipped; [congruence | simpl List.length in E; lia].
  - reflexivity.
Qed.

(* ================================================================= *)
(** * [getReferDiscount] *)

(** C9.  With the kind equal to the string "percentage" the result is
    (refDiscount / 100) * totalAmountForRefer, computed on the Numbers the
    two arguments convert to; with any other kind it is refDiscount itself,
    whatever the total. *)
Theorem getReferDiscount_cases
  (totalAmountForRefer refDiscount refPercentage : JsValue) :
  (refPercentage = JStr "percentage" ->
   forall d t, ToNumber refDiscount = Ok d ->
               ToNumber totalAmountForRefer = Ok t ->
     getReferDiscount totalAmountForRefer refDiscount refPercentage
     = Ok (JNum (Num.mul (Num.div d (Num.of_Z 100)) t)))
  /\ (refPercentage <> JStr "percentage" ->
      forall anyTotal,
        getReferDiscount anyTotal refDiscount refPercentage = Ok refDiscount).
Proof.
  unfold getReferDiscount. split.
  - intros -> d t Hd Ht. simpl. unfold js_div, js_mul, arith.
    rewrite Hd, ToNumber_JInt. simpl. rewrite Ht. reflexivity.
  - intros Hk anyTotal. apply strict_eq_str_false in Hk. rewrite Hk.
    reflexivity.
Qed.

(* ================================================================= *)
(** * No exception on plain input *)

Lemma append_add_on_returns (item : JsValue) (index : Z) (add_on : string) :
  is_primitive (property item "name") = true ->
  returns (append_add_on item index add_on).
Proof.
  intros Hn. unfold append_add_on.
  destruct (ToBoolean (OptionalGet item "isChecked")) eqn:Hc.
  - unfold Get. rewrite (checked_not_nullish item Hc). simpl.
    destruct (ToString_primitive _ Hn) as [text Ht]. unfold template.
    rewrite Ht. simpl. eexists. reflexivity.
  - eexists. reflexivity.
Qed.

Lemma visit_returns (items : list JsValue) :
  Forall (fun item => is_primitive (property item "name") = true) items ->
  forall index add_on, returns (visit append_add_on items index add_on).
Proof.
  induction 1 as [| item items Hn _ IH]; intros index add_on; simpl.
  - eexists. reflexivity.
  - destruct (append_add_on_returns item index add_on Hn) as [s ->]. simpl.
    apply IH.
Qed.

Lemma getSelectedAddOn_returns (items : list JsValue) :
  Forall (fun item => is_primitive (property item "name") = true) items ->
  returns (getSelectedAddOn (JArr items)).
Proof.
  intros H. unfold getSelectedAddOn.
  change (OptionalGet (JArr items) "length")
    with (JNum (Num.of_Z (Z.of_nat (List.length items)))).
  rewrite (js_gt_number _ (Num.of_Z 0) _ (ToNumber_JNum _)).
  simpl bind. destruct (negb _ && _).
  - apply visit_returns, H.
  - eexists. reflexivity.
Qed.

Lemma arith_returns
  (op : Num.number -> Num.number -> Num.number) (a b : JsValue) :
  is_primitive a = true -> is_primitive b = true ->
  exists x, arith op a b = Ok (JNum x).
Proof.
  intros Ha Hb. unfold arith.
  destruct (ToNumber_primitive a Ha) as [x ->].
  destruct (ToNumber_primitive b Hb) as [y ->].
  simpl. eexists. reflexivity.
Qed.

Lemma getDiscountedAmount_returns
  (price discount discountType storeDiscount quantity : JsValue) :
  is_primitive price = true ->
  is_primitive discount = true ->
  is_primitive quantity = true ->
  returns (getDiscountedAmount price discount discountType storeDiscount
             quantity).
Proof.
  intros Hp Hd Hq. unfold getDiscountedAmount.
  destruct (ToNumber_primitive discount Hd) as [d Hnd].
  rewrite (js_gt_number _ _ _ Hnd). simpl bind.
  assert (Hq' : is_primitive (if ToBoolean quantity then quantity else JInt 1)
                = true) by (destruct (ToBoolean quantity); auto).
  destruct (negb _ && _); [| eexists; reflexivity].
  destruct (strict_eq_str discountType "amount").
  - destruct (arith_returns Num.mul discount _ Hd Hq') as [cut Hcut].
    unfold js_mul. rewrite Hcut. simpl.
    destruct (arith_returns Num.sub price (JNum cut) Hp eq_refl) as [r Hr].
    unfold js_sub. rewrite Hr. eexists. reflexivity.
  - destruct (_ || _); [| eexists; reflexivity].
    destruct (arith_returns Num.div discount (JInt 100) Hd eq_refl)
      as [rate Hrate].
    unfold js_div. rewrite Hrate. simpl.
    destruct (arith_returns Num.mul (JNum rate) price eq_refl Hp)
      as [cut Hcut].
    unfold js_mul. rewrite Hcut. simpl.
    destruct (arith_returns Num.sub price (JNum cut) Hp eq_refl) as [r Hr].
    unfold js_sub. rewrite Hr. eexists. reflexivity.
Qed.

Lemma getReferDiscount_returns
  (totalAmountForRefer refDiscount refPercentage : JsValue) :
  is_primitive totalAmountForRefer = true ->
  is_primitive refDiscount = true ->
  returns (getReferDiscount totalAmountForRefer refDiscount refPercentage).
Proof.
  intros Ht Hd. unfold getReferDiscount.
  destruct (strict_eq_str refPercentage "percentage");
    [| eexists; reflexivity].
  destruct (arith_returns Num.div refDiscount (JInt 100) Hd eq_refl)
    as [rate Hrate].
  unfold js_div. rewrite Hrate. simpl.
  destruct (arith_returns Num.mul (JNum rate) totalAmountForRefer eq_refl Ht)
    as [r Hr].
  unfold js_mul. rewrite Hr. eexists. reflexivity.
Qed.

(** C3 (amended).  On undefined, null, booleans, Numbers and Strings as
    amounts, prices, discounts, quantities and currency symbol, and on
    add-on arrays whose items have such names, no helper throws, provided
    the digit count is an integer from 0 to 100 whenever decimals are asked
    for; when it is not, getAmountWithSign throws a RangeError on every
    amount that gets past its guard. *)
Theorem helpers_return_on_plain_input :
  (forall state amount needDecimal,
      is_primitive amount = true ->
      is_primitive (symbol state) = true ->
      (wants_decimals needDecimal = true ->
       exists f, fraction_digits (decimals state) f) ->
      returns (getAmountWithSign state amount needDecimal))
  /\ (forall state amount needDecimal x r,
         numeric_amount amount x ->
         wants_decimals needDecimal = true ->
         ToIntegerOrInfinity (decimals state) = Ok r ->
         out_of_range r ->
         getAmountWithSign state amount needDecimal = Throw RangeError)
  /\ (forall price discount discountType storeDiscount quantity,
         is_primitive price = true ->
         is_primitive discount = true ->
         is_primitive quantity = true ->
         returns (getDiscountedAmount price discount discountType
                    storeDiscount quantity))
  /\ (forall totalAmountForRefer refDiscount refPercentage,
         is_primitive totalAmountForRefer = true ->
         is_primitive refDiscount = true ->
         returns (getReferDiscount totalAmountForRefer refDiscount
                    refPercentage))
  /\ (forall items,
         Forall (fun item => is_primitive (property item "name") = true) items
         -> returns (getSelectedAddOn (JArr items)))
  /\ returns (getSelectedAddOn JNull)
  /\ returns (getSelectedAddOn JUndefined).
Proof.
  split; [exact getAmountWithSign_returns |].
  split; [exact getAmountWithSign_RangeError |].
  split; [exact getDiscountedAmount_returns |].
  split; [exact getReferDiscount_returns |].
  split; [exact getSelectedAddOn_returns |].
  split; exists ""; reflexivity.
Qed.

(* ================================================================= *)
(** * Concrete runs *)

(** C1: with the symbol "$" on the right, -12.3 is formatted as "-13$",
    not as the "-12$" truncation toward zero would give. *)
Lemma getAmountWithSign_truncation_counterexample :
  ~ formats_truncated (store_state (JInt 2) "$" "right") (JNum minus_12_3).
Proof.
  intros H.
  specialize (H minus_12_3 "$" (conj eq_refl (conj eq_refl eq_refl))
                eq_refl eq_refl).
  vm_compute in H. discriminate H.
Qed.

Lemma getAmountWithSign_rounds_down_witness :
  getAmountWithSign (store_state (JInt 2) "$" "right") (JNum n12_345)
    (JBool false) = Ok "12$"
  /\ getAmountWithSign (store_state (JInt 2) "$" "right") (JNum minus_12_3)
       (JBool false) = Ok "-13$"
  /\ exists n,
       Num.to_Z (Num.Math_floor minus_12_3) = Some n
       /\ Num.to_Z (Num.truncate_toward_zero minus_12_3) = Some (n + 1)
       /\ n * 2 ^ 49 < -6924284427082138 < (n + 1) * 2 ^ 49.
Proof.
  split; [| split].
  - rewrite (proj1 (getAmountWithSign_rounds_down
                      (store_state (JInt 2) "$" "right") (JNum n12_345)
                      n12_345 "$" (conj eq_refl (conj eq_refl eq_refl))
                      eq_refl)).
    vm_compute. reflexivity.
  - rewrite (proj1 (getAmountWithSign_rounds_down
                      (store_state (JInt 2) "$" "right") (JNum minus_12_3)
                      minus_12_3 "$" (conj eq_refl (conj eq_refl eq_refl))
                      eq_refl)).
    vm_compute. reflexivity.
  - exact (proj2 (proj2 (getAmountWithSign_rounds_down
                           (store_state (JInt 2) "$" "right")
                           (JNum minus_12_3) minus_12_3 "$"
                           (conj eq_refl (conj eq_refl eq_refl)) eq_refl))
             6924284427082138%positive (-49) eq_refl eq_refl eq_refl).
Defined.

(** Anything but an array with a positive [length] has no [map] to call. *)
Example getSelectedAddOn_not_an_array :
  getSelectedAddOn (JStr "abc") = Throw TypeError
  /\ getSelectedAddOn (JObj [("length", JInt 1)]) = Throw TypeError
  /\ getSelectedAddOn (JStr "") = Ok "".
Proof. vm_compute. repeat split. Qed.

(** C3: one fraction digit too many and [toFixed] throws. *)
Lemma never_throw_counterexample : ~ never_throw.
Proof.
  intros [H _].
  destruct (H (store_state (JInt 101) "$" "left") (JInt 1) (JBool true))
    as [s Hs].
  vm_compute in Hs. discriminate Hs.
Qed.

Lemma helpers_return_on_plain_input_witness :
  returns (getAmountWithSign (store_state (JStr "3") "$" "left")
             (JStr " 7 ") JUndefined)
  /\ getAmountWithSign (store_state (JInt 101) "$" "left") (JInt 1)
       (JBool true) = Throw RangeError
  /\ returns (getDiscountedAmount (JStr "100") JNull (JStr "amount")
                JUndefined (JBool true))
  /\ returns (getReferDiscount JUndefined (JStr "ten") (JStr "percentage"))
  /\ returns (getSelectedAddOn
                (JArr [JNull; JStr "x"; JObj [("isChecked", JInt 1)]])).
Proof.
  destruct helpers_return_on_plain_input as (Ha & Hr & Hd & Hf & Hs & _).
  split; [| split; [| split; [| split]]].
  - apply Ha; [reflexivity | reflexivity |].
    intros _. exists 3. split; [reflexivity | lia].
  - apply (Hr _ _ _ (Num.of_Z 1) (Finite 101));
      [repeat split | reflexivity | reflexivity | right; lia].
  - apply Hd; reflexivity.
  - apply Hf; reflexivity.
  - apply Hs. repeat constructor.
Defined.

(** C4: an infinite amount is not convertible to a finite number, yet it
    is formatted, not rejected. *)
Lemma getAmountWithSign_infinity_counterexample :
  ~ rejects_not_finite JUndefined (JNum Num.Infinity) (JBool true).
Proof.
  intros H.
  assert (Hinf : not_finite (JNum Num.Infinity)).
  { right. exists Num.Infinity. split; reflexivity. }
  specialize (H Hinf). vm_compute in H. discriminate H.
Qed.

Lemma getAmountWithSign_rejects_NaN_witness :
  getAmountWithSign (store_state (JInt 2) "$" "left") (JStr "abc")
    (JBool true) = Ok ""
  /\ getAmountWithSign (store_state (JInt 2) "$" "left") JNull (JBool true)
     = Ok ""
  /\ getAmountWithSign (store_state (JInt 2) "$" "left") JUndefined
       (JBool false) = Ok "".
Proof.
  split; [| split].
  - apply (proj1 (getAmountWithSign_rejects_NaN _ (JStr "abc") _)).
    right. vm_compute. reflexivity.
  - apply (proj1 (getAmountWithSign_rejects_NaN _ JNull _)).
    left. reflexivity.
  - apply (proj1 (getAmountWithSign_rejects_NaN _ JUndefined _)).
    left. reflexivity.
Defined.

Lemma getAmountWithSign_symbol_placement_witness :
  getAmountWithSign (store_state (JInt 2) "$" "left") (JNum n12_345)
    (JBool true) = Ok "$12.35"
  /\ getAmountWithSign (store_state (JInt 2) "$" "right") (JNum n12_345)
       (JBool true) = Ok "12.35$"
  /\ getAmountWithSign JUndefined (JNum n12_345) JUndefined = Ok "12.35".
Proof.
  split; [| split].
  - rewrite (proj1 (getAmountWithSign_symbol_placement
                      (store_state (JInt 2) "$" "left") (JNum n12_345)
                      (JBool true) n12_345 "$" "12.35"
                      (conj eq_refl (conj eq_refl eq_refl))
                      ltac:(vm_compute; reflexivity) eq_refl)).
    reflexivity.
  - rewrite (proj1 (getAmountWithSign_symbol_placement
                      (store_state (JInt 2) "$" "right") (JNum n12_345)
                      (JBool true) n12_345 "$" "12.35"
                      (conj eq_refl (conj eq_refl eq_refl))
                      ltac:(vm_compute; reflexivity) eq_refl)).
    reflexivity.
  - rewrite (proj1 (getAmountWithSign_symbol_placement
                      JUndefined (JNum n12_345) JUndefined n12_345 "" "12.35"
                      (conj eq_refl (conj eq_refl eq_refl))
                      ltac:(vm_compute; reflexivity) eq_refl)).
    reflexivity.
Defined.

Lemma getSelectedAddOn_checked_names_witness :
  getSelectedAddOn
    (JArr [add_on_item {| name := "Cheese"; isChecked := true |};
           add_on_item {| name := "Bacon"; isChecked := false |};
           add_on_item {| name := "Sauce"; isChecked := true |}])
  = Ok "Cheese, Sauce".
Proof.
  pose proof (getSelectedAddOn_checked_names
                (map add_on_item
                   [{| name := "Cheese"; isChecked := true |};
                    {| name := "Bacon"; isChecked := false |};
                    {| name := "Sauce"; isChecked := true |}])
                [{| name := "Cheese"; isChecked := true |};
                 {| name := "Bacon"; isChecked := false |};
                 {| name := "Sauce"; isChecked := true |}]) as H.
  apply H.
  - unfold array_sized. simpl List.length. lia.
  - repeat constructor.
Defined.

Lemma getSelectedAddOn_leading_separator_witness :
  getSelectedAddOn
    (JArr [add_on_item {| name := "A"; isChecked := false |};
           add_on_item {| name := "B"; isChecked := true |};
           add_on_item {| name := "C"; isChecked := true |}])
  = Ok ", B, C".
Proof.
  apply (getSelectedAddOn_leading_separator
           (map add_on_item
              [{| name := "A"; isChecked := false |};
               {| name := "B"; isChecked := true |};
               {| name := "C"; isChecked := true |}])
           [{| name := "A"; isChecked := false |}]
           {| name := "B"; isChecked := true |}
           [{| name := "C"; isChecked := true |}]).
  - unfold array_sized. simpl List.length. lia.
  - repeat constructor.
  - discriminate.
  - reflexivity.
  - reflexivity.
Defined.

Lemma getDiscountedAmount_formulas_witness :
  getDiscountedAmount (JInt 100) (JInt 10) (JStr "amount") JUndefined (JInt 2)
  = Ok (JInt 80)
  /\ getDiscountedAmount (JInt 100) (JInt 10) (JStr "amount") JUndefined
       JUndefined
     = Ok (JInt 90)
  /\ getDiscountedAmount (JInt 100) (JInt 10) (JStr "percent") JUndefined
       (JInt 5)
     = Ok (JInt 90).
Proof.
  split; [| split].
  - rewrite (proj1 (getDiscountedAmount_formulas (JInt 100) (JInt 10)
               (JStr "amount") JUndefined (JInt 2) _ _
               eq_refl eq_refl eq_refl) eq_refl _ eq_refl).
    vm_compute. reflexivity.
  - rewrite (proj1 (getDiscountedAmount_formulas (JInt 100) (JInt 10)
               (JStr "amount") JUndefined JUndefined _ _
               eq_refl eq_refl eq_refl) eq_refl _ eq_refl).
    vm_compute. reflexivity.
  - rewrite (proj2 (proj2 (proj2 (getDiscountedAmount_formulas (JInt 100)
               (JInt 10) (JStr "percent") JUndefined JUndefined _ _
               eq_refl eq_refl eq_refl))) (or_introl eq_refl) (JInt 5)).
    vm_compute. reflexivity.
Defined.

Lemma getDiscountedAmount_unchanged_witness :
  getDiscountedAmount (JInt 100) (JInt 0) (JStr "amount") JUndefined (JInt 1)
  = Ok (JInt 100)
  /\ getDiscountedAmount (JInt 100) (JInt 10) (JStr "coupon") JUndefined
       (JInt 1)
     = Ok (JInt 100).
Proof.
  split.
  - apply (proj1 (getDiscountedAmount_unchanged (JInt 100) (JInt 0)
                    (JStr "amount") JUndefined (JInt 1))).
    vm_compute. reflexivity.
  - apply (proj2 (getDiscountedAmount_unchanged (JInt 100) (JInt 10)
                    (JStr "coupon") JUndefined (JInt 1))).
    + unfold recognised. intros [H | [H | H]]; discriminate H.
    + eexists. reflexivity.
Defined.

Lemma getReferDiscount_cases_witness :
  getReferDiscount (JInt 200) (JInt 10) (JStr "percentage") = Ok (JInt 20)
  /\ getReferDiscount (JInt 200) (JInt 15) (JStr "flat") = Ok (JInt 15).
Proof.
  split.
  - rewrite (proj1 (getReferDiscount_cases (JInt 200) (JInt 10)
                      (JStr "percentage")) eq_refl _ _ eq_refl eq_refl).
    vm_compute. reflexivity.
  - apply (proj2 (getReferDiscount_cases (JInt 200) (JInt 15) (JStr "flat"))).
    discriminate.
Defined.

(* ================================================================= *)
(** * More on [getSelectedAddOn] *)








(* ================================================================= *)
(** * The text of a formatted amount *)

Lemma decimal_not_empty (n : Z) : Num.decimal n <> "".
Proof.
  unfold Num.decimal, NilZero.string_of_uint.
  destruct (N.to_uint (Z.to_N n)); simpl; discriminate.
Qed.

Lemma all_digits_uint (u : Decimal.uint) :
  all_digits (NilEmpty.string_of_uint u) = true.
Proof. induction u; simpl; auto. Qed.

Lemma decimal_digits (n : Z) : all_digits (Num.decimal n) = true.
Proof.
  unfold Num.decimal, NilZero.string_of_uint.
  destruct (N.to_uint (Z.to_N n)) eqn:E; try reflexivity;
    rewrite <- E; apply all_digits_uint.
Qed.

Lemma all_digits_app (a b : string) :
  all_digits (a ++ b) = all_digits a && all_digits b.
Proof.
  induction a as [| c a IH]; simpl; [reflexivity |].
  rewrite IH, andb_assoc. reflexivity.
Qed.

Lemma all_digits_zeros (n : nat) : all_digits (Num.zeros n) = true.
Proof. induction n; simpl; auto. Qed.

Lemma length_app (a b : string) :
  String.length (a ++ b) = (String.length a + String.length b)%nat.
Proof. induction a; simpl; congruence. Qed.

Lemma length_zeros (n : nat) : String.length (Num.zeros n) = n.
Proof. induction n; simpl; congruence. Qed.

Lemma take_drop (n : nat) (s : string) :
  (n <= String.length s)%nat ->
  Num.take n s ++ Num.drop n s = s
  /\ String.length (Num.take n s) = n
  /\ String.length (Num.drop n s) = (String.length s - n)%nat.
Proof.
  unfold Num.take, Num.drop. revert n.
  induction s as [| c s IH]; intros n Hn.
  - simpl in Hn. replace n with O by lia. repeat split.
  - destruct n as [| n].
    + simpl. clear IH Hn. split; [| split; [reflexivity |]].
      * f_equal. induction s; simpl; congruence.
      * f_equal. induction s; simpl; congruence.
    + simpl in Hn. destruct (IH n ltac:(lia)) as (H1 & H2 & H3).
      simpl. rewrite H1, H2, H3. repeat split.
Qed.

Lemma fixed_digits_shape (n f : Z) :
  0 < f ->
  exists a b,
    Num.fixed_digits n f = a ++ "." ++ b
    /\ String.length b = Z.to_nat f
    /\ a <> ""
    /\ all_digits a = true /\ all_digits b = true.
Proof.
  intros Hf. unfold Num.fixed_digits.
  destruct (Z.eqb_spec f 0) as [| _]; [lia |].
  set (k := String.length (Num.decimal n)).
  set (m := if Z.of_nat k <=? f
            then Num.zeros (Z.to_nat (f + 1 - Z.of_nat k)) ++ Num.decimal n
            else Num.decimal n).
  assert (Hlen : (Z.to_nat f + 1 <= String.length m)%nat).
  { subst m. destruct (Z.leb_spec (Z.of_nat k) f).
    - rewrite length_app, length_zeros. fold k. lia.
    - lia. }
  assert (Hdig : all_digits m = true).
  { subst m. destruct (_ <=? _).
    - rewrite all_digits_app, all_digits_zeros, decimal_digits. reflexivity.
    - apply decimal_digits. }
  destruct (take_drop (String.length m - Z.to_nat f) m ltac:(lia))
    as (Happ & Htake & Hdrop).
  exists (Num.take (String.length m - Z.to_nat f) m),
    (Num.drop (String.length m - Z.to_nat f) m).
  rewrite <- Happ, all_digits_app in Hdig.
  apply andb_true_iff in Hdig. destruct Hdig as [Ha Hb].
  repeat split; try assumption.
  - lia.
  - intros E. rewrite E in Htake. simpl in Htake. lia.
Qed.


Lemma fixed_digits_parts (n f : Z) :
  0 <= f ->
  exists a b,
    Num.fixed_digits n f = a ++ fraction_part f b
    /\ String.length b = Z.to_nat f
    /\ a <> ""
    /\ all_digits a = true /\ all_digits b = true.
Proof.
  intros Hf. unfold fraction_part.
  destruct (Z.ltb_spec 0 f) as [Hpos | Hzero].
  - exact (fixed_digits_shape n f Hpos).
  - replace f with 0 by lia. exists (Num.decimal n), "".
    change (Num.fixed_digits n 0) with (Num.decimal n).
    rewrite append_empty_r.
    repeat split; auto using decimal_not_empty, decimal_digits.
Qed.

Lemma toFixed_digits_parts (x : Num.number) (f : Z) :
  positional x = true -> 0 <= f ->
  exists a b,
    Num.toFixed_digits x f = minus_sign x ++ a ++ fraction_part f b
    /\ String.length b = Z.to_nat f
    /\ a <> ""
    /\ all_digits a = true /\ all_digits b = true.
Proof.
  intros Hx Hf. destruct x as [s | s | | s m e]; try discriminate Hx.
  - apply (fixed_digits_parts 0 f Hf).
  - unfold Num.toFixed_digits, minus_sign. unfold positional in Hx.
    apply negb_true_iff in Hx. rewrite Hx.
    destruct (fixed_digits_parts
                (Num.round_half_up (Num.numerator m e) (Num.denominator e) f)
                f Hf) as (a & b & -> & H).
    exists a, b. split; [| exact H]. destruct s; reflexivity.
Qed.

(** X2.  With decimals asked for and a digit count [f] from 0 to 100, an
    amount below 10^21 in magnitude is written as an optional minus sign,
    at least one digit and, when [f] is not 0, a point followed by exactly
    [f] digits, with the currency symbol placed around it. *)
Theorem getAmountWithSign_fraction_digits
  (state amount needDecimal : JsValue) (x : Num.number) (f : Z)
  (currency : string) :
  numeric_amount amount x ->
  positional x = true ->
  wants_decimals needDecimal = true ->
  fraction_digits (decimals state) f ->
  ToString (symbol state) = Ok currency ->
  exists a b,
    getAmountWithSign state amount needDecimal
    = Ok (placed state currency (minus_sign x ++ a ++ fraction_part f b))
    /\ String.length b = Z.to_nat f
    /\ a <> ""
    /\ all_digits a = true /\ all_digits b = true.
Proof.
  intros Hx Hpos Hw [Hf Hrange] Hsym.
  destruct (toFixed_digits_parts x f Hpos ltac:(lia)) as (a & b & Hshape & H).
  exists a, b. split; [| exact H].
  rewrite (getAmountWithSign_numeric state amount needDecimal x Hx).
  unfold formatted_number, toFixed. rewrite Hw, Hf. simpl.
  destruct (Z.ltb_spec f 0); [lia |].
  destruct (Z.ltb_spec 100 f); [lia |]. simpl.
  rewrite Hsym, Hshape. reflexivity.
Qed.








(* ================================================================= *)
(** * Exact products and differences *)

Lemma shr_iter_xO (k m : positive) :
  iter_pos shr_1 k (Build_shr_record (Zpos (Pos.iter xO m k)) false false)
  = Build_shr_record (Zpos m) false false.
Proof.
  revert m. induction k as [k IH | k IH |]; intros m; simpl.
  - rewrite !IH. reflexivity.
  - rewrite !IH. reflexivity.
  - reflexivity.
Qed.

Lemma iter_xO_pos_mul (m k : positive) :
  Pos.iter xO m k = (m * 2 ^ k)%positive.
Proof.
  apply Pos2Z.inj. rewrite iter_xO_mul, Pos2Z.inj_mul, Pos2Z.inj_pow.
  reflexivity.
Qed.

Lemma valid_canonical (s : bool) (m : positive) (e : Z) :
  Num.valid (S754_finite s m e) = true ->
  fexp 53 1024 (Zpos (Pos.size m) + e) = e /\ e <= 971.
Proof.
  unfold Num.valid, valid_binary, bounded, canonical_mantissa, Num.prec,
    Num.emax.
  stdlib_Z. rewrite andb_true_iff, Z.eqb_eq, Z.leb_le, digits2_size.
  intros [H1 H2]. split; [exact H1 | lia].
Qed.

Lemma round_aux_scaled (s : bool) (m k : positive) (e : Z) :
  Num.valid (S754_finite s m e) = true ->
  binary_round_aux 53 1024 s (Zpos (m * 2 ^ k)) (e + Zneg k) loc_Exact
  = S754_finite s m e.
Proof.
  intros Hv. destruct (valid_canonical s m e Hv) as [Hc He].
  rewrite <- iter_xO_pos_mul.
  unfold binary_round_aux, shr_fexp. simpl Zdigits2. stdlib_Z.
  rewrite digits2_size, iter_xO_size.
  replace (Zpos (Pos.size m + k) + (e + Zneg k)) with (Zpos (Pos.size m) + e)
    by lia.
  rewrite Hc. replace (e - (e + Zneg k)) with (Zpos k) by lia.
  unfold shr. cbv beta iota delta [shr_record_of_loc].
  rewrite !shr_iter_xO.
  cbv beta iota delta [shr_m loc_of_shr_record round_nearest_even
                         shr_record_of_loc Zdigits2].
  stdlib_Z. rewrite digits2_size.
  replace (e + Zneg k + Zpos k) with e by lia.
  rewrite Hc, Z.sub_diag. cbv beta iota. stdlib_Z.
  change (1024 - 53) with 971.
  destruct (Z.leb_spec e 971); [reflexivity | lia].
Qed.

Lemma mul_one_r (x : Num.number) :
  Num.valid x = true -> Num.mul x (Num.of_Z 1) = x.
Proof.
  intros Hv. destruct x as [s | s | | s m e]; try (destruct s; reflexivity).
  - reflexivity.
  - change (Num.of_Z 1) with (S754_finite false (2 ^ 52)%positive (-52)).
    unfold Num.mul, SFmul, Num.prec, Num.emax. rewrite xorb_false_r.
    apply (round_aux_scaled s m 52 e Hv).
Qed.

Lemma mul_one_l (x : Num.number) :
  Num.valid x = true -> Num.mul (Num.of_Z 1) x = x.
Proof.
  intros Hv. destruct x as [s | s | | s m e]; try (destruct s; reflexivity).
  - reflexivity.
  - change (Num.of_Z 1) with (S754_finite false (2 ^ 52)%positive (-52)).
    unfold Num.mul, SFmul, Num.prec, Num.emax. rewrite xorb_false_l.
    rewrite Pos.mul_comm. stdlib_Z. rewrite Z.add_comm.
    apply (round_aux_scaled s m 52 e Hv).
Qed.

Lemma sub_diag (x : Num.number) :
  Num.is_finite x = true -> Num.sub x x = S754_zero false.
Proof.
  destruct x as [s | s | | s m e]; try discriminate; intros _.
  - destruct s; reflexivity.
  - unfold Num.sub, SFsub. stdlib_Z. rewrite Z.sub_diag. reflexivity.
Qed.

(* ================================================================= *)
(** * More on [getDiscountedAmount] *)

(** X4.  Unless the discount converts to a Number above zero, the price
    comes back as it was given: so for a discount that is undefined, a
    text that is no number, or NaN, whatever the kind and the quantity. *)
Theorem getDiscountedAmount_needs_positive_discount
  (price discount discountType storeDiscount quantity : JsValue)
  (d : Num.number) :
  ToNumber discount = Ok d ->
  Num.ltb (Num.of_Z 0) d = false \/ Num.is_nan d = true ->
  getDiscountedAmount price discount discountType storeDiscount quantity
  = Ok price.
Proof.
  intros Hd Hnot. apply getDiscountedAmount_not_positive.
  rewrite (js_gt_number _ _ _ Hd).
  destruct Hnot as [-> | ->]; [rewrite andb_false_r | rewrite orb_true_r];
    reflexivity.
Qed.

(** X5.  For the kind "amount" with a quantity that is absent or falsy
    (or 1), the result is exactly price - discount: multiplying the
    discount by the default quantity changes nothing. *)
Theorem getDiscountedAmount_default_quantity_exact
  (price discount storeDiscount quantity : JsValue) (p d : Num.number) :
  ToNumber price = Ok p ->
  ToNumber discount = Ok d ->
  Num.valid d = true ->
  Num.ltb (Num.of_Z 0) d = true ->
  ToBoolean quantity = false \/ ToNumber quantity = Ok (Num.of_Z 1) ->
  getDiscountedAmount price discount (JStr "amount") storeDiscount quantity
  = Ok (JNum (Num.sub p d)).
Proof.
  intros Hp Hd Hv Hpos Hq.
  assert (Hone : ToNumber (effective_quantity quantity) = Ok (Num.of_Z 1)).
  { unfold effective_quantity. destruct Hq as [-> | Hq]; [reflexivity |].
    destruct (ToBoolean quantity); [exact Hq | reflexivity]. }
  assert (Hgt : js_gt discount (Num.of_Z 0) = Ok true).
  { rewrite (js_gt_number _ _ _ Hd), Hpos.
    destruct d; try reflexivity. discriminate Hpos. }
  rewrite (getDiscountedAmount_positive price discount (JStr "amount")
             storeDiscount quantity Hgt).
  cbn [strict_eq_str]. rewrite String.eqb_refl.
  unfold js_mul, js_sub, arith. rewrite Hd, Hone. simpl. rewrite Hp. simpl.
  rewrite (mul_one_r d Hv). reflexivity.
Qed.

(** X6.  A discount of 100 with the kind "percent" or "fixed" brings
    every finite price to exactly zero, whatever the quantity. *)
Theorem getDiscountedAmount_full_percentage
  (price discount discountType storeDiscount quantity : JsValue)
  (p : Num.number) :
  ToNumber price = Ok p ->
  Num.valid p = true ->
  Num.is_finite p = true ->
  ToNumber discount = Ok (Num.of_Z 100) ->
  discountType = JStr "percent" \/ discountType = JStr "fixed" ->
  getDiscountedAmount price discount discountType storeDiscount quantity
  = Ok (JNum (S754_zero false)).
Proof.
  intros Hp Hv Hfin Hd Hk.
  assert (Hgt : js_gt discount (Num.of_Z 0) = Ok true)
    by (rewrite (js_gt_number _ _ _ Hd); reflexivity).
  rewrite (getDiscountedAmount_positive price discount discountType
             storeDiscount quantity Hgt).
  assert (Hkind : strict_eq_str discountType "amount" = false
                  /\ strict_eq_str discountType "percent"
                     || strict_eq_str discountType "fixed" = true)
    by (destruct Hk as [-> | ->]; split; reflexivity).
  destruct Hkind as [-> ->].
  unfold js_div, js_mul, js_sub, arith.
  rewrite Hd, ToNumber_JInt. simpl. rewrite Hp. simpl.
  change (Num.div (Num.of_Z 100) (Num.of_Z 100)) with (Num.of_Z 1).
  rewrite (mul_one_l p Hv), (sub_diag p Hfin). reflexivity.
Qed.

(** X7.  For a discount above zero of kind "percent" or "fixed", the
    discounted price is the price minus the referral discount that
    getReferDiscount computes for the same price and percentage. *)
Theorem getDiscountedAmount_percent_is_referral
  (price discount discountType storeDiscount quantity : JsValue) :
  js_gt discount (Num.of_Z 0) = Ok true ->
  discountType = JStr "percent" \/ discountType = JStr "fixed" ->
  getDiscountedAmount price discount discountType storeDiscount quantity
  = cut <- getReferDiscount price discount (JStr "percentage") ;;
    js_sub price cut.
Proof.
  intros Hgt Hk.
  rewrite (getDiscountedAmount_positive price discount discountType
             storeDiscount quantity Hgt).
  assert (Hkind : strict_eq_str discountType "amount" = false
                  /\ strict_eq_str discountType "percent"
                     || strict_eq_str discountType "fixed" = true)
    by (destruct Hk as [-> | ->]; split; reflexivity).
  destruct Hkind as [-> ->].
  unfold getReferDiscount. cbn [strict_eq_str]. rewrite String.eqb_refl.
  destruct (js_div discount (JInt 100)) as [rate |]; reflexivity.
Qed.

(* ================================================================= *)
(** * The commit message generator *)

Section CommitType.

Import CommitAgent.

Variable analysis : Analysis.
Variable files : list string.

(** The type depends on the files through six conditions only. *)
Ltac abstract_conditions :=
  unfold determineCommitType;
  repeat match goal with
         | |- context [existsb ?f files] =>
             let c := fresh "c" in
             generalize (existsb f files); intros c
         | |- context [forallb ?f files] =>
             let c := fresh "c" in
             generalize (forallb f files); intros c
         end.

Lemma determineCommitType_cases :
  In (determineCommitType analysis files)
    ["feat"; "fix"; "docs"; "style"; "test"; "chore"].
Proof.
  abstract_conditions.
  destruct (hasNewFiles analysis), (hasAdditions analysis),
    (hasDeletions analysis), c, c0, c1, c2, c3, c4, c5; cbn; tauto.
Qed.

(** X8.  The commit type is one of feat, fix, docs, style, test and
    chore: the branch that answers "refactor" is never taken, because a
    change with additions and deletions has been typed "fix" before. *)
Theorem determineCommitType_range :
  In (determineCommitType analysis files)
    ["feat"; "fix"; "docs"; "style"; "test"; "chore"]
  /\ determineCommitType analysis files <> "refactor".
Proof.
  split; [exact determineCommitType_cases |].
  intros E. pose proof determineCommitType_cases as H. rewrite E in H.
  cbn in H. repeat (destruct H as [H | H]; [discriminate H |]). exact H.
Qed.

(** X9.  A change that has both additions and deletions is typed feat or
    fix, whatever the files are: docs, style, test and chore are left to
    changes that only add or only delete. *)
Theorem determineCommitType_mixed_change :
  hasAdditions analysis = true ->
  hasDeletions analysis = true ->
  determineCommitType analysis files = "feat"
  \/ determineCommitType analysis files = "fix".
Proof.
  unfold determineCommitType. intros -> ->.
  destruct (hasNewFiles analysis || _); [left; reflexivity |].
  rewrite orb_true_r. right. reflexivity.
Qed.

(** X10.  Every commit type that determineCommitType produces has an
    emoji of its own in getCommitEmoji: the fallback is never used for
    it. *)
Theorem getCommitEmoji_of_determined_type :
  exists emoji,
    getCommitEmoji (determineCommitType analysis files) = Own emoji
    /\ own emojis (determineCommitType analysis files) = Some emoji.
Proof.
  pose proof determineCommitType_cases as H. cbn in H.
  repeat (destruct H as [H | H];
          [rewrite <- H; eexists; split; reflexivity |]).
  contradiction.
Qed.

End CommitType.

Section Scope.

Import CommitAgent.

Lemma scopes_own (projectType : string) (l : list string) :
  or_else (get_member PROJECT_SCOPES projectType) ["core"] = Own l ->
  In l scope_lists.
Proof.
  unfold get_member, PROJECT_SCOPES, own, or_else.
  repeat match goal with
         | |- context [String.eqb ?a projectType] =>
             destruct (String.eqb a projectType);
             [intros [= <-]; cbn; tauto |]
         end.
  destruct (existsb _ _); [discriminate |].
  intros [= <-]. cbn. tauto.
Qed.

Lemma scopes_not_built_in (projectType : string) :
  existsb (String.eqb projectType) object_prototype_names = false ->
  exists l, or_else (get_member PROJECT_SCOPES projectType) ["core"] = Own l.
Proof.
  intros H. unfold get_member. rewrite H.
  destruct (own PROJECT_SCOPES projectType); eexists; reflexivity.
Qed.

Lemma scopes_built_in (projectType : string) :
  existsb (String.eqb projectType) object_prototype_names = true ->
  or_else (get_member PROJECT_SCOPES projectType) ["core"] = Inherited.
Proof.
  intros H. unfold get_member. rewrite H.
  assert (Hown : own PROJECT_SCOPES projectType = None).
  { unfold PROJECT_SCOPES, own.
    repeat match goal with
           | |- context [String.eqb ?a projectType] =>
               destruct (String.eqb_spec a projectType);
               [subst projectType; discriminate H |]
           end.
    reflexivity. }
  rewrite Hown. reflexivity.
Qed.

(** An element of a list of non-empty names, or else the first one. *)
Lemma element_or_first (l : list string) (i : nat) :
  In l scope_lists ->
  exists s, js_or (element (Own l) i) (element (Own l) 0) = JStr s
            /\ In s l.
Proof.
  intros H. cbn in H.
  repeat (destruct H as [H | H];
          [subst l;
           do 6 (try destruct i as [| i]); cbn;
           eexists; (split; [reflexivity | cbn; tauto]) |]).
  contradiction.
Qed.

Lemma element_first (l : list string) :
  In l scope_lists ->
  exists s, element (Own l) 0 = JStr s /\ In s l.
Proof.
  intros H. cbn in H.
  repeat (destruct H as [H | H];
          [subst l; cbn; eexists; (split; [reflexivity | cbn; tauto]) |]).
  contradiction.
Qed.

Lemma determineScope_nil (projectType : string) :
  determineScope projectType []
  = element (or_else (get_member PROJECT_SCOPES projectType) ["core"]) 0.
Proof. reflexivity. Qed.

Lemma determineScope_cons (projectType file : string) (rest : list string) :
  determineScope projectType (file :: rest)
  = let scopes := or_else (get_member PROJECT_SCOPES projectType) ["core"] in
    if includes file "component" then
      js_or (element scopes 2) (element scopes 0)
    else if includes file "page" || includes file "route" then
      js_or (element scopes 3) (element scopes 0)
    else if includes file "style" || includes file "css" then
      js_or (element scopes 4) (element scopes 0)
    else if includes file "model" || includes file "database" then
      js_or (element scopes 4) (element scopes 0)
    else if includes file "api" || includes file "controller" then
      element scopes 0
    else if includes file "test" || includes file "spec" then JStr "test"
    else if includes file "config" || includes file "env" then JStr "config"
    else determineScope projectType rest.
Proof. reflexivity. Qed.

Ltac split_on_file file :=
  repeat match goal with
         | |- context [if ?c then _ else _] =>
             match c with
             | context [file] => destruct c
             end
         end.

Lemma determineScope_listed (projectType : string) (files : list string)
  (l : list string) :
  or_else (get_member PROJECT_SCOPES projectType) ["core"] = Own l ->
  exists s, determineScope projectType files = JStr s
            /\ In s (l ++ ["test"; "config"]).
Proof.
  intros Hl. pose proof (scopes_own projectType l Hl) as Hin.
  induction files as [| file rest IH].
  - rewrite determineScope_nil, Hl.
    destruct (element_first l Hin) as (s & -> & Hs).
    exists s. split; [reflexivity | apply in_or_app; auto].
  - rewrite determineScope_cons, Hl. cbv zeta. split_on_file file;
      try (match goal with
           | |- context [js_or (element (Own l) ?i) _] =>
               destruct (element_or_first l i Hin) as (s & -> & Hs)
           | |- context [element (Own l) 0] =>
               destruct (element_first l Hin) as (s & -> & Hs)
           end;
           exists s; split; [reflexivity | apply in_or_app; auto]).
    + exists "test". split; [reflexivity |]. apply in_or_app. cbn. tauto.
    + exists "config". split; [reflexivity |]. apply in_or_app. cbn. tauto.
    + exact IH.
Qed.

Lemma determineScope_inherited (projectType : string) (files : list string) :
  existsb (String.eqb projectType) object_prototype_names = true ->
  In (determineScope projectType files)
    [JUndefined; JStr "test"; JStr "config"].
Proof.
  intros H. induction files as [| file rest IH].
  - rewrite determineScope_nil, (scopes_built_in projectType H).
    cbn. tauto.
  - rewrite determineScope_cons, (scopes_built_in projectType H).
    cbv zeta. split_on_file file; try exact IH; cbn; tauto.
Qed.

(** X11.  The scope is a name of the list chosen for the project type (the
    list ["core"] for an unknown type), or "test" or "config".  It is
    undefined only for a project type that names a built-in of
    Object.prototype, and then it is undefined, "test" or "config". *)
Theorem determineScope_range (projectType : string) (files : list string) :
  (forall l,
      or_else (get_member PROJECT_SCOPES projectType) ["core"] = Own l ->
      exists s, determineScope projectType files = JStr s
                /\ In s (l ++ ["test"; "config"]))
  /\ (existsb (String.eqb projectType) object_prototype_names = false ->
      exists l,
        or_else (get_member PROJECT_SCOPES projectType) ["core"] = Own l
        /\ In l scope_lists)
  /\ (existsb (String.eqb projectType) object_prototype_names = true ->
      In (determineScope projectType files)
        [JUndefined; JStr "test"; JStr "config"]).
Proof.
  split; [| split].
  - apply determineScope_listed.
  - intros H. destruct (scopes_not_built_in projectType H) as [l Hl].
    exists l. split; [exact Hl | exact (scopes_own projectType l Hl)].
  - apply determineScope_inherited.
Qed.

End Scope.

Section Files.

Import CommitAgent.

Lemma split_piece (f rest : string) :
  has_char " " f = false ->
  split " " (f ++ " " ++ rest) = f :: split " " rest.
Proof.
  induction f as [| c f IH]; intros H; [reflexivity |].
  cbn [has_char] in H. apply orb_false_iff in H. destruct H as [Hc Hf].
  change (String c f ++ " " ++ rest) with (String c (f ++ " " ++ rest)).
  cbn [split]. rewrite Hc, (IH Hf). reflexivity.
Qed.

(** X12.  The file list that smart-commit.sh builds, each name followed by
    a space, is read back by the script as the same list, as long as no
    name holds a space or is blank. *)
Theorem FILES_of_file_argument (files : list string) :
  Forall (fun f => has_char " " f = false /\ blank f = false) files ->
  FILES (Some (file_argument files)) = files.
Proof.
  unfold FILES. induction 1 as [| f files [Hspace Hblank] _ IH];
    [reflexivity |].
  cbn [file_argument fold_right]. rewrite (split_piece f _ Hspace).
  cbn [filter]. rewrite Hblank. cbn [negb]. f_equal. exact IH.
Qed.

Lemma split_no_separator (c : ascii) (s piece : string) :
  In piece (split c s) -> has_char c piece = false.
Proof.
  revert piece. induction s as [| d s IH]; intros piece H.
  - cbn in H. destruct H as [<- | []]. reflexivity.
  - cbn [split] in H. destruct (Ascii.eqb c d) eqn:E.
    + destruct H as [<- | H]; [reflexivity | exact (IH piece H)].
    + destruct (split c s) as [| first others] eqn:Es.
      * destruct H as [<- | []]. cbn. rewrite E. reflexivity.
      * destruct H as [<- | H].
        -- cbn [has_char]. rewrite E. apply IH. left. reflexivity.
        -- apply IH. right. exact H.
Qed.

(** X13.  No entry of FILES is empty, blank or holds a space, whatever
    the argument was. *)
Theorem FILES_pieces (argument : option string) (f : string) :
  In f (FILES argument) ->
  f <> "" /\ has_char " " f = false /\ blank f = false.
Proof.
  unfold FILES. rewrite filter_In. intros [Hin Hblank].
  apply negb_true_iff in Hblank. repeat split.
  - intros ->. discriminate Hblank.
  - exact (split_no_separator " " _ f Hin).
  - exact Hblank.
Qed.

End Files.

Section Message.

Import CommitAgent.

Lemma options_of_type (commitType scope : string) :
  In commitType ["feat"; "fix"; "docs"; "style"; "test"; "chore"] ->
  exists l,
    options commitType scope = Own l
    /\ List.length l = if String.eqb commitType "test" then 1%nat else 4%nat.
Proof.
  intros H. cbn in H.
  repeat (destruct H as [H | H];
          [subst commitType; eexists; split; reflexivity |]).
  contradiction.
Qed.

Lemma element_in_range (l : list string) (i : nat) :
  (i < List.length l)%nat -> exists d, element (Own l) i = JStr d.
Proof.
  intros H. unfold element.
  destruct (nth_error l i) as [d |] eqn:E; [exists d; reflexivity |].
  apply nth_error_None in E. lia.
Qed.

Lemma generateDescription_returns (pick : nat) (commitType : string)
  (scope : JsValue) (text : string) (files : list string)
  (analysis : Analysis) :
  In commitType ["feat"; "fix"; "docs"; "style"; "test"; "chore"] ->
  (pick < if String.eqb commitType "test" then 1 else 4)%nat ->
  ToString scope = Ok text ->
  files <> [] ->
  exists d,
    generateDescription pick commitType scope files analysis = Ok (JStr d).
Proof.
  intros Ht Hpick Hs Hfiles. unfold generateDescription, template.
  rewrite Hs. cbn [bind].
  destruct (options_of_type commitType text Ht) as (l & -> & Hlen).
  rewrite <- Hlen in Hpick.
  destruct (element_in_range l pick Hpick) as [d ->].
  destruct (5 <? totalFiles analysis); [eexists; reflexivity |].
  destruct (totalFiles analysis =? 1); [| eexists; reflexivity].
  destruct files; [contradiction | eexists; reflexivity].
Qed.

Lemma determineScope_text (projectType : string) (files : list string) :
  exists text, ToString (determineScope projectType files) = Ok text.
Proof.
  destruct (existsb (String.eqb projectType) object_prototype_names) eqn:E.
  - pose proof (determineScope_inherited projectType files E) as H.
    cbn in H. destruct H as [<- | [<- | [<- | []]]]; eexists; reflexivity.
  - destruct (scopes_not_built_in projectType E) as (l & Hl).
    destruct (determineScope_listed projectType files l Hl) as (s & -> & _).
    eexists; reflexivity.
Qed.

(** X14.  With files given, generateCommitMessage throws nothing and
    prints a line of the form "emoji type(scope): description", with the
    emoji of the type, the scope as text and the description that
    generateDescription returns. *)
Theorem generateCommitMessage_shape
  (PROJECT_TYPE : string) (FILES : list string) (analysis : Analysis)
  (pick : nat) :
  FILES <> [] ->
  (pick < if String.eqb (determineCommitType analysis FILES) "test"
          then 1 else 4)%nat ->
  exists emoji scope description,
    generateCommitMessage PROJECT_TYPE FILES analysis pick
    = Ok (Own (emoji ++ " " ++ determineCommitType analysis FILES
               ++ "(" ++ scope ++ "): " ++ description))
    /\ own emojis (determineCommitType analysis FILES) = Some emoji
    /\ ToString (determineScope PROJECT_TYPE FILES) = Ok scope
    /\ generateDescription pick (determineCommitType analysis FILES)
         (determineScope PROJECT_TYPE FILES) FILES analysis
       = Ok (JStr description).
Proof.
  intros Hfiles Hpick.
  pose proof (determineCommitType_cases analysis FILES) as Ht.
  destruct (determineScope_text PROJECT_TYPE FILES) as [scope Hscope].
  destruct (generateDescription_returns pick _ _ scope FILES analysis Ht
              Hpick Hscope Hfiles) as [description Hd].
  assert (He : exists emoji,
             getCommitEmoji (determineCommitType analysis FILES) = Own emoji
             /\ own emojis (determineCommitType analysis FILES) = Some emoji).
  { cbn in Ht.
    repeat (destruct Ht as [Ht | Ht];
            [rewrite <- Ht; eexists; split; reflexivity |]).
    contradiction. }
  destruct He as (emoji & Hemoji & Hown).
  exists emoji, scope, description.
  split; [| split; [exact Hown | split; [exact Hscope | exact Hd]]].
  unfold generateCommitMessage. destruct FILES; [contradiction |].
  rewrite Hd. cbn [bind]. rewrite Hemoji. unfold template.
  rewrite Hscope. reflexivity.
Qed.

End Message.

(* ================================================================= *)
(** * Concrete runs of the further statements *)


Lemma getAmountWithSign_fraction_digits_witness :
  exists a b,
    getAmountWithSign (store_state (JInt 3) "$" "left") (JNum minus_12_3)
      JUndefined
    = Ok ("$" ++ "-" ++ a ++ "." ++ b)
    /\ String.length b = 3%nat
    /\ a <> ""
    /\ all_digits a = true /\ all_digits b = true.
Proof.
  apply (getAmountWithSign_fraction_digits
           (store_state (JInt 3) "$" "left") (JNum minus_12_3) JUndefined
           minus_12_3 3 "$").
  - split; [reflexivity | split; reflexivity].
  - reflexivity.
  - reflexivity.
  - split; [reflexivity | lia].
  - reflexivity.
Defined.


Lemma getDiscountedAmount_needs_positive_discount_witness :
  getDiscountedAmount (JStr "100") JUndefined (JStr "amount") JUndefined
    (JInt 2) = Ok (JStr "100")
  /\ getDiscountedAmount (JInt 100) (JStr "ten") (JStr "percent") JUndefined
       (JInt 2) = Ok (JInt 100).
Proof.
  split.
  - apply (getDiscountedAmount_needs_positive_discount _ JUndefined _ _ _
             Num.NaN eq_refl).
    right. reflexivity.
  - apply (getDiscountedAmount_needs_positive_discount _ (JStr "ten") _ _ _
             Num.NaN eq_refl).
    right. reflexivity.
Defined.

Lemma getDiscountedAmount_default_quantity_exact_witness :
  getDiscountedAmount (JInt 100) (JNum n12_345) (JStr "amount") JUndefined
    JUndefined
  = Ok (JNum (Num.sub (Num.of_Z 100) n12_345)).
Proof.
  apply (getDiscountedAmount_default_quantity_exact (JInt 100) (JNum n12_345)
           JUndefined JUndefined (Num.of_Z 100) n12_345
           eq_refl eq_refl eq_refl eq_refl).
  left. reflexivity.
Defined.

Lemma getDiscountedAmount_full_percentage_witness :
  getDiscountedAmount (JNum n12_345) (JStr "100") (JStr "percent") JUndefined
    (JInt 3)
  = Ok (JNum (S754_zero false)).
Proof.
  apply (getDiscountedAmount_full_percentage (JNum n12_345) (JStr "100")
           (JStr "percent") JUndefined (JInt 3) n12_345
           eq_refl eq_refl eq_refl eq_refl).
  left. reflexivity.
Defined.

Lemma getDiscountedAmount_percent_is_referral_witness :
  getDiscountedAmount (JInt 200) (JInt 10) (JStr "fixed") JUndefined (JInt 5)
  = cut <- getReferDiscount (JInt 200) (JInt 10) (JStr "percentage") ;;
    js_sub (JInt 200) cut.
Proof.
  apply (getDiscountedAmount_percent_is_referral (JInt 200) (JInt 10)
           (JStr "fixed") JUndefined (JInt 5) eq_refl).
  right. reflexivity.
Defined.

Lemma determineCommitType_mixed_change_witness :
  CommitAgent.determineCommitType
    {| CommitAgent.hasAdditions := true; CommitAgent.hasDeletions := true;
       CommitAgent.hasNewFiles := false; CommitAgent.totalFiles := 1 |}
    ["README.md"]
  = "feat"
  \/ CommitAgent.determineCommitType
       {| CommitAgent.hasAdditions := true; CommitAgent.hasDeletions := true;
          CommitAgent.hasNewFiles := false; CommitAgent.totalFiles := 1 |}
       ["README.md"]
     = "fix".
Proof.
  exact (determineCommitType_mixed_change
           {| CommitAgent.hasAdditions := true;
              CommitAgent.hasDeletions := true;
              CommitAgent.hasNewFiles := false;
              CommitAgent.totalFiles := 1 |}
           ["README.md"] eq_refl eq_refl).
Defined.

Lemma determineScope_range_witness :
  (exists s,
      CommitAgent.determineScope "docs" ["pages/guide.md"] = JStr s
      /\ In s (["docs"; "readme"; "guide"] ++ ["test"; "config"]))
  /\ In (CommitAgent.determineScope "constructor" ["main.js"])
       [JUndefined; JStr "test"; JStr "config"].
Proof.
  split.
  - exact (proj1 (determineScope_range "docs" ["pages/guide.md"])
             ["docs"; "readme"; "guide"] eq_refl).
  - exact (proj2 (proj2 (determineScope_range "constructor" ["main.js"]))
             eq_refl).
Defined.

Lemma FILES_of_file_argument_witness :
  CommitAgent.FILES
    (Some (CommitAgent.file_argument ["src/pages/index.js"; "README.md"]))
  = ["src/pages/index.js"; "README.md"].
Proof.
  apply (FILES_of_file_argument ["src/pages/index.js"; "README.md"]).
  repeat constructor.
Defined.

Lemma FILES_pieces_witness :
  "b.js" <> ""
  /\ CommitAgent.has_char " " "b.js" = false
  /\ CommitAgent.blank "b.js" = false.
Proof.
  apply (FILES_pieces (Some " a.js  b.js") "b.js").
  right. left. reflexivity.
Defined.

Lemma generateCommitMessage_shape_witness :
  exists emoji scope description,
    CommitAgent.generateCommitMessage "frontend" ["src/components/Button.jsx"]
      {| CommitAgent.hasAdditions := true; CommitAgent.hasDeletions := false;
         CommitAgent.hasNewFiles := false; CommitAgent.totalFiles := 1 |} 0
    = Ok (CommitAgent.Own
            (emoji ++ " " ++ "feat" ++ "(" ++ scope ++ "): " ++ description))
    /\ CommitAgent.own CommitAgent.emojis "feat" = Some emoji
    /\ ToString (JStr "components") = Ok scope
    /\ CommitAgent.generateDescription 0 "feat" (JStr "components")
         ["src/components/Button.jsx"]
         {| CommitAgent.hasAdditions := true;
            CommitAgent.hasDeletions := false;
            CommitAgent.hasNewFiles := false;
            CommitAgent.totalFiles := 1 |}
       = Ok (JStr description).
Proof.
  exact (generateCommitMessage_shape "frontend" ["src/components/Button.jsx"]
           {| CommitAgent.hasAdditions := true;
              CommitAgent.hasDeletions := false;
              CommitAgent.hasNewFiles := false;
              CommitAgent.totalFiles := 1 |} 0
           ltac:(discriminate) ltac:(vm_compute; repeat constructor)).
Defined.
